(** * Presentation generator UI: data model, viewer, editor and persistence

    A shallow embedding of the stateful logic of the React components
    [App], [PresentationEditor] and [PresentationViewer].  Component state
    ([useState]) becomes a record, an event handler becomes a function on
    that record, reading the cells of the render that created it; a
    [useEffect] becomes its dependency list, its body and its cleanup;
    timers become counters of milliseconds; the body of a component becomes
    the list of its statements with the identifiers each one reads. *)

From Stdlib Require Import ZArith Bool Ascii String List Lia.
From stdpp Require Import base option list strings pretty.

Local Open Scope Z_scope.

(** ** Data model ([App.tsx]) *)

(** [layout: 'title' | 'content' | 'image' | 'split'] *)
Inductive Layout : Type :=
| LTitle
| LContent
| LImage
| LSplit.

(** [interface Slide]; the optional [imageUrl] is [None] when the property is
    absent or [undefined]. *)
Record Slide : Type := mkSlide {
  slide_id : string;
  slide_title : string;
  slide_content : string;
  slide_imageUrl : option string;
  slide_theme : string;
  slide_layout : Layout
}.

(** [interface Presentation] *)
Record Presentation : Type := mkPresentation {
  pres_id : string;
  pres_title : string;
  pres_slides : list Slide;
  pres_theme : string;
  pres_createdAt : string;
  pres_updatedAt : string
}.

#[global] Instance Layout_eq_dec : EqDecision Layout.
Proof. solve_decision. Defined.

#[global] Instance Slide_eq_dec : EqDecision Slide.
Proof. solve_decision. Defined.

#[global] Instance Presentation_eq_dec : EqDecision Presentation.
Proof. solve_decision. Defined.

(** [array.length] as a JavaScript number. *)
Definition jsLength {A : Type} (l : list A) : Z := Z.of_nat (length l).

(** [array[i]]: [None] stands for [undefined], which is what an index that is
    negative or past the end reads. *)
Definition jsIndex {A : Type} (l : list A) (i : Z) : option A :=
  if i <? 0 then None else l !! Z.to_nat i.

(** ** The viewer ([PresentationViewer.tsx]) *)

Module Viewer.

(** The four [useState] cells of the component, and the two timers its
    effects own: [interval] is the number of milliseconds until the autoplay
    callback runs next, [timeout] the number of milliseconds until the
    callback hiding the controls runs; [None] when no timer is pending. *)
Record State : Type := mkState {
  currentSlideIndex : Z;
  isFullscreen : bool;
  isAutoPlay : bool;
  showControls : bool;
  interval : option Z;
  timeout : option Z
}.

#[global] Instance State_eq_dec : EqDecision State.
Proof. solve_decision. Defined.

Definition setCurrentSlideIndex (i : Z) (s : State) : State :=
  mkState i (isFullscreen s) (isAutoPlay s) (showControls s) (interval s) (timeout s).

Definition setIsFullscreen (b : bool) (s : State) : State :=
  mkState (currentSlideIndex s) b (isAutoPlay s) (showControls s) (interval s) (timeout s).

Definition setIsAutoPlay (b : bool) (s : State) : State :=
  mkState (currentSlideIndex s) (isFullscreen s) b (showControls s) (interval s) (timeout s).

Definition setShowControls (b : bool) (s : State) : State :=
  mkState (currentSlideIndex s) (isFullscreen s) (isAutoPlay s) b (interval s) (timeout s).

Definition setInterval (t : option Z) (s : State) : State :=
  mkState (currentSlideIndex s) (isFullscreen s) (isAutoPlay s) (showControls s) t (timeout s).

Definition setTimeout (t : option Z) (s : State) : State :=
  mkState (currentSlideIndex s) (isFullscreen s) (isAutoPlay s) (showControls s) (interval s) t.

(** 5 seconds per slide, 3 seconds before the controls fade. *)
Definition autoPlayDelay : Z := 5000.
Definition controlsDelay : Z := 3000.

(** *** Event handlers; [len] is [presentation.slides.length]

    Each handler as a function of the cells it is called on, reading the
    cells of that same render. *)

Definition nextSlide (len : Z) (s : State) : State :=
  if currentSlideIndex s <? len - 1
  then setCurrentSlideIndex (currentSlideIndex s + 1) s
  else s.

Definition prevSlide (s : State) : State :=
  if currentSlideIndex s >? 0
  then setCurrentSlideIndex (currentSlideIndex s - 1) s
  else s.

Definition restart (s : State) : State :=
  setIsAutoPlay false (setCurrentSlideIndex 0 s).

Definition exitFullscreen (s : State) : State :=
  setIsFullscreen false s.

Definition toggleFullscreen (s : State) : State :=
  if negb (isFullscreen s) then setIsFullscreen true s else exitFullscreen s.

Definition toggleAutoPlay (s : State) : State :=
  setIsAutoPlay (negb (isAutoPlay s)) s.

(** [onMouseMove={() => setShowControls(true)}] *)
Definition onMouseMove (s : State) : State :=
  setShowControls true s.

(** [onBack] hands control back to the editor; no cell of the viewer
    changes. *)
Definition onBack (s : State) : State := s.

(** The callback of [setInterval]: the functional update of the index, which
    switches autoplay off on the last slide. *)
Definition intervalCallback (len : Z) (s : State) : State :=
  if currentSlideIndex s >=? len - 1
  then setIsAutoPlay false s
  else setCurrentSlideIndex (currentSlideIndex s + 1) s.

(** The callback of [setTimeout]: [setShowControls(false)]; the timeout has
    fired and is no longer pending. *)
Definition timeoutCallback (s : State) : State :=
  setTimeout None (setShowControls false s).

(** *** Closures

    A handler is a closure: it reads the cells of the render that created
    it, [c], and writes to the cells as they are when it is called, [s].
    The two differ whenever the handler is called after a later write: the
    [keydown] listener stays registered until its effect runs again, and two
    calls can arrive before the next render.  [restart], [exitFullscreen],
    [onMouseMove] and [onBack] read no cell, and the interval callback reads
    the index through its functional update. *)

Definition nextSlideFrom (len : Z) (c s : State) : State :=
  if currentSlideIndex c <? len - 1
  then setCurrentSlideIndex (currentSlideIndex c + 1) s
  else s.

Definition prevSlideFrom (c s : State) : State :=
  if currentSlideIndex c >? 0
  then setCurrentSlideIndex (currentSlideIndex c - 1) s
  else s.

Definition toggleFullscreenFrom (c s : State) : State :=
  if negb (isFullscreen c) then setIsFullscreen true s else exitFullscreen s.

Definition toggleAutoPlayFrom (c s : State) : State :=
  setIsAutoPlay (negb (isAutoPlay c)) s.

(** The [keydown] listener created in render [c], on [e.key]: it calls the
    handlers of that render. *)
Definition handleKeyPress (len : Z) (c : State) (key : string) (s : State) : State :=
  if (key =? "ArrowRight")%string || (key =? " ")%string then nextSlideFrom len c s
  else if (key =? "ArrowLeft")%string then prevSlideFrom c s
  else if (key =? "Escape")%string then
    (if isFullscreen c then exitFullscreen s else onBack s)
  else if (key =? "f")%string || (key =? "F")%string then toggleFullscreenFrom c s
  else if (key =? "r")%string || (key =? "R")%string then restart s
  else s.

(** *** Effects

    Each effect by its dependency list, its body and its cleanup, as
    functions of the cells of the render they belong to. *)

(** [useEffect(..., [isAutoPlay, presentation.slides.length])]: the body
    creates the interval while autoplay is on, the cleanup is
    [clearInterval]. *)
Definition autoPlayDeps (len : Z) (s : State) : bool * Z :=
  (isAutoPlay s, len).

Definition autoPlayEffect (s : State) : State :=
  if isAutoPlay s then setInterval (Some autoPlayDelay) s else s.

Definition autoPlayCleanup (s : State) : State :=
  setInterval None s.


Definition controlsEffect (s : State) : State :=
  if isFullscreen s then setTimeout (Some controlsDelay) s
  else setShowControls true s.

Definition controlsCleanup (s : State) : State :=
  setTimeout None s.


Definition indexInRange (len : Z) (s : State) : Prop :=
  0 <= currentSlideIndex s <= len - 1.

(** The functions of the component that write a cell or a timer: the
    handlers and the listener created in render [c], the two timer
    callbacks, and the bodies and cleanups of the two effects. *)
Inductive called (len : Z) (c : State) : (State -> State) -> Prop :=
| c_next : called len c (nextSlideFrom len c)
| c_prev : called len c (prevSlideFrom c)
| c_restart : called len c restart
| c_toggleFullscreen : called len c (toggleFullscreenFrom c)
| c_exitFullscreen : called len c exitFullscreen
| c_toggleAutoPlay : called len c (toggleAutoPlayFrom c)
| c_mouse : called len c onMouseMove
| c_back : called len c onBack
| c_key key : called len c (handleKeyPress len c key)
| c_interval : called len c (intervalCallback len)
| c_timeout : called len c timeoutCallback
| c_autoPlayEffect : called len c autoPlayEffect
| c_autoPlayCleanup : called len c autoPlayCleanup
| c_controlsEffect : called len c controlsEffect
| c_controlsCleanup : called len c controlsCleanup.

(** The cells that calls can produce, starting from [useState(0)] for the
    index: any of the functions above, created in any render produced so
    far, called on any cells produced so far. *)
Inductive reachable (len : Z) : State -> Prop :=
| reach_start s : currentSlideIndex s = 0 -> reachable len s
| reach_call c h s :
    reachable len c -> reachable len s -> called len c h ->
    reachable len (h s).

(** *** The body of the component

    The statements of the function [PresentationViewer] in source order.
    Each lists the identifiers of the function that are read when the
    statement is evaluated: the initialiser of a declaration, the
    dependency list of [useEffect] and of [useCallback], the returned
    element with the call [renderSlideContent()] inside it.  Identifiers
    that only occur inside a function that is created but not called there
    are not read.  [presentation] and [onBack] are the parameters. *)
Inductive Statement : Type :=
| Const (declares reads : list string)
| UseEffect (effect : string) (deps : list string)
| Return (reads : list string).

Definition PresentationViewer : list Statement :=
  [ (* 30-33 *)
    Const ["currentSlideIndex"; "setCurrentSlideIndex"] [];
    Const ["isFullscreen"; "setIsFullscreen"] [];
    Const ["isAutoPlay"; "setIsAutoPlay"] [];
    Const ["showControls"; "setShowControls"] [];
    (* 35-36 *)
    Const ["currentSlide"] ["presentation"; "currentSlideIndex"];
    Const ["themeColors"] ["presentation"];
    (* 38-52 *)
    UseEffect "autoplay" ["isAutoPlay"; "presentation"];
    (* 54-86 *)
    UseEffect "keydown"
      ["isFullscreen"; "nextSlide"; "prevSlide"; "onBack"; "toggleFullscreen";
       "restart"];
    (* 88-96 *)
    UseEffect "controls" ["isFullscreen"; "currentSlideIndex"];
    (* 98-131 *)
    Const ["nextSlide"] ["currentSlideIndex"; "presentation"];
    Const ["prevSlide"] ["currentSlideIndex"];
    Const ["restart"] [];
    Const ["toggleFullscreen"] ["isFullscreen"];
    Const ["exitFullscreen"] [];
    Const ["toggleAutoPlay"] [];
    (* 133-198 *)
    Const ["renderSlideContent"] [];
    (* 200-301 *)
    Return ["isFullscreen"; "showControls"; "onBack"; "presentation";
            "currentSlideIndex"; "restart"; "toggleAutoPlay"; "isAutoPlay";
            "toggleFullscreen"; "renderSlideContent"; "currentSlide";
            "themeColors"; "prevSlide"; "nextSlide"] ].

(** What evaluating the body gives: the element, with the effects handed to
    React on the way, or the [ReferenceError] raised by reading a [const]
    before its declaration has been evaluated. *)
Inductive Rendered : Type :=
| Returns (effects : list string)
| ReferenceError (name : string).

(** The identifiers declared with [const] in the body: from the start of
    the function until its declaration is evaluated, each is uninitialised
    and reading it raises. *)
Definition declared (body : list Statement) : list string :=
  flat_map (fun st => match st with Const d _ => d | _ => [] end) body.

Definition uninitialisedRead (pending reads : list string) : option string :=
  List.find (fun x => existsb (String.eqb x) pending) reads.

Definition initialise (names pending : list string) : list string :=
  List.filter (fun x => negb (existsb (String.eqb x) names)) pending.

Fixpoint evaluate (pending effects : list string) (body : list Statement) : Rendered :=
  match body with
  | [] => Returns effects
  | Const d r :: rest =>
      match uninitialisedRead pending r with
      | Some x => ReferenceError x
      | None => evaluate (initialise d pending) effects rest
      end
  | UseEffect e deps :: rest =>
      match uninitialisedRead pending deps with
      | Some x => ReferenceError x
      | None => evaluate pending (effects ++ [e]) rest
      end
  | Return r :: _ =>
      match uninitialisedRead pending r with
      | Some x => ReferenceError x
      | None => Returns effects
      end
  end.

Definition render (body : list Statement) : Rendered :=
  evaluate (declared body) [] body.

(** React runs the effects of a render only when the render returned. *)
Definition committedEffects (r : Rendered) : list string :=
  match r with
  | Returns effects => effects
  | ReferenceError _ => []
  end.

(** The same statements with every declaration moved before the effects
    and the return. *)
Definition declarationsFirst (body : list Statement) : list Statement :=
  List.filter (fun st => match st with Const _ _ => true | _ => false end) body
  ++ List.filter (fun st => match st with Const _ _ => false | _ => true end) body.

End Viewer.

(** ** JavaScript helpers used by the editor *)

(** [array.slice(start, end)]: a negative bound counts from the end, and
    both bounds are clamped to the array. *)
Definition jsRelIndex (len k : Z) : Z :=
  if k <? 0 then Z.max (len + k) 0 else Z.min k len.

Definition jsSlice {A : Type} (l : list A) (start stop : Z) : list A :=
  let a := jsRelIndex (jsLength l) start in
  let b := jsRelIndex (jsLength l) stop in
  take (Z.to_nat (b - a)) (drop (Z.to_nat a) l).

(** [array.slice(start)] *)
Definition jsSliceFrom {A : Type} (l : list A) (start : Z) : list A :=
  jsSlice l start (jsLength l).

(** [array.filter((_, index) => p(index))], the index counted from [i]. *)
Fixpoint jsFilterIndexFrom {A : Type} (p : Z -> bool) (i : Z) (l : list A) : list A :=
  match l with
  | [] => []
  | x :: l' =>
      if p i then x :: jsFilterIndexFrom p (i + 1) l'
      else jsFilterIndexFrom p (i + 1) l'
  end.

Definition jsFilterIndex {A : Type} (p : Z -> bool) (l : list A) : list A :=
  jsFilterIndexFrom p 0 l.

(** [array.map((x, index) => f(index, x))] *)
Definition jsMapIndex {A B : Type} (f : Z -> A -> B) (l : list A) : list B :=
  imap (fun i x => f (Z.of_nat i) x) l.

(** The template literal [`${n}`] of an integer. *)
Definition showNumber (n : Z) : string := pretty n.

(** Whether a text has a dash, and what follows its last dash (the whole
    text when it has none). *)
Fixpoint hasDash (s : string) : bool :=
  match s with
  | EmptyString => false
  | String c s' => Ascii.eqb c "-" || hasDash s'
  end.

Fixpoint afterLastDash (s : string) : string :=
  match s with
  | EmptyString => ""
  | String c s' =>
      if hasDash s' then afterLastDash s'
      else if Ascii.eqb c "-" then s' else s
  end.

(** ** The editor ([PresentationEditor.tsx]) *)

Module Editor.

(** The cells the slide operations read and write.  ([isGeneratingImage] and
    [isSaving] are busy flags of the two asynchronous requests.) *)
Record State : Type := mkState {
  currentPresentation : Presentation;
  selectedSlideIndex : Z
}.

#[global] Instance State_eq_dec : EqDecision State.
Proof. solve_decision. Defined.

Definition slides (s : State) : list Slide := pres_slides (currentPresentation s).

(** [{ ...currentPresentation, slides: updatedSlides }] *)
Definition withSlides (p : Presentation) (l : list Slide) : Presentation :=
  mkPresentation (pres_id p) (pres_title p) l (pres_theme p)
                 (pres_createdAt p) (pres_updatedAt p).

Definition withTitle (p : Presentation) (t : string) : Presentation :=
  mkPresentation (pres_id p) t (pres_slides p) (pres_theme p)
                 (pres_createdAt p) (pres_updatedAt p).

Definition withTheme (p : Presentation) (t : string) : Presentation :=
  mkPresentation (pres_id p) (pres_title p) (pres_slides p) t
                 (pres_createdAt p) (pres_updatedAt p).

(** [Partial<Slide>]: [None] is a key that is not given.  [imageUrl] may be
    given as [undefined] ([Some None]), which is how the image is removed. *)
Record SlideUpdates : Type := mkUpdates {
  upd_id : option string;
  upd_title : option string;
  upd_content : option string;
  upd_imageUrl : option (option string);
  upd_theme : option string;
  upd_layout : option Layout
}.

(** [{ ...slide, ...updates }] *)
Definition applyUpdates (slide : Slide) (u : SlideUpdates) : Slide :=
  mkSlide (default (slide_id slide) (upd_id u))
          (default (slide_title slide) (upd_title u))
          (default (slide_content slide) (upd_content u))
          (default (slide_imageUrl slide) (upd_imageUrl u))
          (default (slide_theme slide) (upd_theme u))
          (default (slide_layout slide) (upd_layout u)).

(** What a handler does to the component.
    - [Done s]: it returns and the cells hold [s];
    - [Throws]: it raises a [TypeError] before any setter ran (React keeps
      the cells as they were);
    - [WritesUndefined]: it stores [undefined] in the slide array, a value
      that [Slide[]] does not describe. *)
Inductive Outcome : Type :=
| Done (s : State)
| Throws
| WritesUndefined.

Definition updateSlide (updates : SlideUpdates) (s : State) : Outcome :=
  let updatedSlides :=
    jsMapIndex (fun index slide =>
                  if index =? selectedSlideIndex s then applyUpdates slide updates
                  else slide) (slides s) in
  Done (mkState (withSlides (currentPresentation s) updatedSlides)
                (selectedSlideIndex s)).

(** [now] is the value of [Date.now()] when the handler runs. *)
Definition addSlide (now : Z) (s : State) : Outcome :=
  let newSlide :=
    mkSlide ("slide-" +:+ showNumber now) "New Slide" "Add your content here..."
            None (pres_theme (currentPresentation s)) LContent in
  let updatedSlides := slides s ++ [newSlide] in
  Done (mkState (withSlides (currentPresentation s) updatedSlides)
                (jsLength updatedSlides - 1)).

Definition duplicateSlide (now : Z) (s : State) : Outcome :=
  match jsIndex (slides s) (selectedSlideIndex s) with
  | None => Throws
  | Some slideToClone =>
      let newSlide :=
        mkSlide ("slide-" +:+ showNumber now)
                (slide_title slideToClone +:+ " (Copy)")
                (slide_content slideToClone) (slide_imageUrl slideToClone)
                (slide_theme slideToClone) (slide_layout slideToClone) in
      let updatedSlides :=
        jsSlice (slides s) 0 (selectedSlideIndex s + 1)
          ++ [newSlide]
          ++ jsSliceFrom (slides s) (selectedSlideIndex s + 1) in
      Done (mkState (withSlides (currentPresentation s) updatedSlides)
                    (selectedSlideIndex s + 1))
  end.

Definition deleteSlide (s : State) : Outcome :=
  if jsLength (slides s) <=? 1 then Done s
  else
    let updatedSlides :=
      jsFilterIndex (fun index => negb (index =? selectedSlideIndex s)) (slides s) in
    Done (mkState (withSlides (currentPresentation s) updatedSlides)
                  (Z.max 0 (selectedSlideIndex s - 1))).

Inductive Direction : Type :=
| Up
| Down.

(** The swap [[slides[currentIndex], slides[newIndex]] = [slides[newIndex],
    slides[currentIndex]]] reads both cells, then writes [currentIndex], then
    [newIndex]. *)
Definition moveSlide (direction : Direction) (s : State) : Outcome :=
  let currentIndex := selectedSlideIndex s in
  let newIndex :=
    match direction with Up => currentIndex - 1 | Down => currentIndex + 1 end in
  if (newIndex <? 0) || (newIndex >=? jsLength (slides s)) then Done s
  else
    match jsIndex (slides s) newIndex, jsIndex (slides s) currentIndex with
    | Some atNew, Some atCurrent =>
        let swapped :=
          <[Z.to_nat newIndex := atCurrent]>
            (<[Z.to_nat currentIndex := atNew]> (slides s)) in
        Done (mkState (withSlides (currentPresentation s) swapped) newIndex)
    | _, _ => WritesUndefined
    end.

(** The title input and the theme buttons. *)
Definition setTitle (t : string) (s : State) : Outcome :=
  Done (mkState (withTitle (currentPresentation s) t) (selectedSlideIndex s)).

Definition setTheme (t : string) (s : State) : Outcome :=
  Done (mkState (withTheme (currentPresentation s) t) (selectedSlideIndex s)).

(** The operations offered by the editor. *)
Inductive Op : Type :=
| OpAdd (now : Z)
| OpDuplicate (now : Z)
| OpDelete
| OpMove (direction : Direction)
| OpUpdate (updates : SlideUpdates)
| OpSetTitle (t : string)
| OpSetTheme (t : string).

Definition exec (op : Op) (s : State) : Outcome :=
  match op with
  | OpAdd now => addSlide now s
  | OpDuplicate now => duplicateSlide now s
  | OpDelete => deleteSlide s
  | OpMove d => moveSlide d s
  | OpUpdate u => updateSlide u s
  | OpSetTitle t => setTitle t s
  | OpSetTheme t => setTheme t s
  end.

(** Operations one after the other; a handler that throws leaves the cells
    as they were, and the run stops at an [undefined] slide. *)
Fixpoint execAll (ops : list Op) (s : State) : option State :=
  match ops with
  | [] => Some s
  | op :: ops' =>
      match exec op s with
      | Done s' => execAll ops' s'
      | Throws => execAll ops' s
      | WritesUndefined => None
      end
  end.

(** The selected index designates a slide. *)
Definition selectionValid (s : State) : Prop :=
  0 <= selectedSlideIndex s < jsLength (slides s).

Definition slideIds (s : State) : list string := slide_id <$> slides s.

End Editor.

(** ** The text form of slides: [JSON.stringify] and [JSON.parse]

    The two built-ins of the language (ECMA-262: [QuoteJSONString], the JSON
    grammar) on the values a [Slide[]] is made of: arrays, objects, strings,
    and the literals.  Numbers do not occur in a slide and are left out of
    the value type; the parser rejects them.  A string is a sequence of
    8-bit characters, so an escape [\uXXXX] above [00ff] is rejected
    too.  On the texts [stringify] writes, which are the only ones this
    application stores, the parser agrees with [JSON.parse]. *)

Module Json.

#[local] Unset Elimination Schemes.

Inductive json : Type :=
| JNull
| JBool (b : bool)
| JString (s : string)
| JArray (elements : list json)
| JObject (members : list (string * json)).

#[local] Set Elimination Schemes.

Definition quoteChar : ascii := "034"%char.
Definition backslashChar : ascii := "092"%char.

(** *** Serializer *)

Definition hexDigit (n : N) : ascii :=
  if (n <? 10)%N then ascii_of_N (48 + n) else ascii_of_N (87 + n).

(** One character of a quoted string, as [QuoteJSONString] writes it:
    the two-character escapes, [\u00xx] for the other control characters,
    the character itself otherwise. *)
Definition escapeChar (c : ascii) : string :=
  match c with
  | "008"%char => String backslashChar "b"
  | "009"%char => String backslashChar "t"
  | "010"%char => String backslashChar "n"
  | "012"%char => String backslashChar "f"
  | "013"%char => String backslashChar "r"
  | "034"%char => String backslashChar (String quoteChar "")
  | "092"%char => String backslashChar (String backslashChar "")
  | _ =>
      if (N_of_ascii c <? 32)%N
      then String backslashChar
             (String "u" (String "0" (String "0"
                (String (hexDigit (N_of_ascii c / 16))
                   (String (hexDigit (N_of_ascii c mod 16)) "")))))
      else String c ""
  end.

Fixpoint escapeString (s : string) : string :=
  match s with
  | EmptyString => ""
  | String c s' => escapeChar c +:+ escapeString s'
  end.

Definition quoteJSONString (s : string) : string :=
  String quoteChar (escapeString s +:+ String quoteChar "").

(** No indentation argument: elements and members are separated by a comma,
    a key from its value by a colon, without white space. *)
Fixpoint stringify (j : json) : string :=
  match j with
  | JNull => "null"
  | JBool true => "true"
  | JBool false => "false"
  | JString s => quoteJSONString s
  | JArray elements =>
      "[" +:+ String.concat "," (map stringify elements) +:+ "]"
  | JObject members =>
      "{" +:+ String.concat ","
                (map (fun kv => match kv with
                                | (k, v) => quoteJSONString k +:+ ":" +:+ stringify v
                                end) members) +:+ "}"
  end.

(** *** Parser *)

Definition isWhitespace (c : ascii) : bool :=
  match c with
  | "009"%char | "010"%char | "013"%char | " "%char => true
  | _ => false
  end.

Fixpoint skipWhitespace (s : string) : string :=
  match s with
  | EmptyString => ""
  | String c s' => if isWhitespace c then skipWhitespace s' else s
  end.

Definition hexValue (c : ascii) : option N :=
  let n := N_of_ascii c in
  if ((48 <=? n) && (n <=? 57))%N then Some (n - 48)%N
  else if ((97 <=? n) && (n <=? 102))%N then Some (n - 87)%N
  else if ((65 <=? n) && (n <=? 70))%N then Some (n - 55)%N
  else None.

Definition hex4 (a b c d : ascii) : option N :=
  match hexValue a, hexValue b, hexValue c, hexValue d with
  | Some x, Some y, Some z, Some w => Some (((x * 16 + y) * 16 + z) * 16 + w)%N
  | _, _, _, _ => None
  end.

Definition consChar (c : ascii) (r : option (string * string)) : option (string * string) :=
  match r with
  | Some (str, rest) => Some (String c str, rest)
  | None => None
  end.

(** The characters of a string after its opening quote, up to and including
    the closing quote; the result is the string denoted and the input left. *)
Fixpoint parseStringBody (s : string) : option (string * string) :=
  match s with
  | EmptyString => None
  | String c rest =>
      if Ascii.eqb c quoteChar then Some ("", rest)
      else if Ascii.eqb c backslashChar then
        match rest with
        | String "034"%char rest' => consChar "034"%char (parseStringBody rest')
        | String "092"%char rest' => consChar "092"%char (parseStringBody rest')
        | String "/"%char rest' => consChar "/"%char (parseStringBody rest')
        | String "b"%char rest' => consChar "008"%char (parseStringBody rest')
        | String "f"%char rest' => consChar "012"%char (parseStringBody rest')
        | String "n"%char rest' => consChar "010"%char (parseStringBody rest')
        | String "r"%char rest' => consChar "013"%char (parseStringBody rest')
        | String "t"%char rest' => consChar "009"%char (parseStringBody rest')
        | String "u"%char (String h1 (String h2 (String h3 (String h4 rest')))) =>
            match hex4 h1 h2 h3 h4 with
            | Some n =>
                if (n <? 256)%N then consChar (ascii_of_N n) (parseStringBody rest')
                else None
            | None => None
            end
        | _ => None
        end
      else if (N_of_ascii c <? 32)%N then None
      else consChar c (parseStringBody rest)
  end.

(** A value, the elements of an array after its bracket, the members of an
    object after its brace.  [fuel] bounds the nesting and the number of
    elements; the length of the input is always enough. *)
Fixpoint parseValue (fuel : nat) (s : string) : option (json * string) :=
  match fuel with
  | O => None
  | S fuel' =>
      match skipWhitespace s with
      | String "n" (String "u" (String "l" (String "l" rest))) => Some (JNull, rest)
      | String "t" (String "r" (String "u" (String "e" rest))) => Some (JBool true, rest)
      | String "f" (String "a" (String "l" (String "s" (String "e" rest)))) =>
          Some (JBool false, rest)
      | String "034" rest =>
          match parseStringBody rest with
          | Some (str, rest') => Some (JString str, rest')
          | None => None
          end
      | String "[" rest =>
          match skipWhitespace rest with
          | String "]" rest' => Some (JArray [], rest')
          | _ =>
              match parseElements fuel' rest with
              | Some (l, rest') => Some (JArray l, rest')
              | None => None
              end
          end
      | String "{" rest =>
          match skipWhitespace rest with
          | String "}" rest' => Some (JObject [], rest')
          | _ =>
              match parseMembers fuel' rest with
              | Some (l, rest') => Some (JObject l, rest')
              | None => None
              end
          end
      | _ => None
      end
  end
with parseElements (fuel : nat) (s : string) : option (list json * string) :=
  match fuel with
  | O => None
  | S fuel' =>
      match parseValue fuel' s with
      | Some (v, rest) =>
          match skipWhitespace rest with
          | String "," rest' =>
              match parseElements fuel' rest' with
              | Some (l, rest'') => Some (v :: l, rest'')
              | None => None
              end
          | String "]" rest' => Some ([v], rest')
          | _ => None
          end
      | None => None
      end
  end
with parseMembers (fuel : nat) (s : string) : option (list (string * json) * string) :=
  match fuel with
  | O => None
  | S fuel' =>
      match skipWhitespace s with
      | String "034" rest =>
          match parseStringBody rest with
          | Some (k, rest1) =>
              match skipWhitespace rest1 with
              | String ":" rest2 =>
                  match parseValue fuel' rest2 with
                  | Some (v, rest3) =>
                      match skipWhitespace rest3 with
                      | String "," rest4 =>
                          match parseMembers fuel' rest4 with
                          | Some (l, rest5) => Some ((k, v) :: l, rest5)
                          | None => None
                          end
                      | String "}" rest4 => Some ([(k, v)], rest4)
                      | _ => None
                      end
                  | None => None
                  end
              | _ => None
              end
          | None => None
          end
      | _ => None
      end
  end.

(** [JSON.parse(text)]: one value, white space around it, nothing else;
    [None] is the [SyntaxError]. *)
Definition parse (text : string) : option json :=
  match parseValue (S (String.length text)) text with
  | Some (j, rest) =>
      match skipWhitespace rest with
      | EmptyString => Some j
      | _ => None
      end
  | None => None
  end.

(** *** Slides as values *)

Definition layoutName (l : Layout) : string :=
  match l with
  | LTitle => "title"
  | LContent => "content"
  | LImage => "image"
  | LSplit => "split"
  end.

Definition layoutOfName (s : string) : option Layout :=
  if (s =? "title")%string then Some LTitle
  else if (s =? "content")%string then Some LContent
  else if (s =? "image")%string then Some LImage
  else if (s =? "split")%string then Some LSplit
  else None.

(** The own properties of a slide object in the order the application creates
    them; a property whose value is [undefined] is not written. *)
Definition slideToJson (s : Slide) : json :=
  JObject ([("id", JString (slide_id s));
            ("title", JString (slide_title s));
            ("content", JString (slide_content s));
            ("theme", JString (slide_theme s));
            ("layout", JString (layoutName (slide_layout s)))]
           ++ match slide_imageUrl s with
              | Some url => [("imageUrl", JString url)]
              | None => []
              end).

(** [object[key]] on a parsed object: of two members with one key the later
    one is kept. *)
Fixpoint getProperty (key : string) (members : list (string * json)) : option json :=
  match members with
  | [] => None
  | (k, v) :: members' =>
      match getProperty key members' with
      | Some v' => Some v'
      | None => if (k =? key)%string then Some v else None
      end
  end.

Definition getString (key : string) (members : list (string * json)) : option string :=
  match getProperty key members with
  | Some (JString s) => Some s
  | _ => None
  end.

(** A parsed value read as a [Slide]; [None] when it is not one (the
    application casts without looking). *)
Definition jsonToSlide (j : json) : option Slide :=
  match j with
  | JObject members =>
      match getString "id" members, getString "title" members,
            getString "content" members, getString "theme" members,
            getString "layout" members with
      | Some id, Some title, Some content, Some theme, Some layout =>
          match layoutOfName layout, getProperty "imageUrl" members with
          | Some l, None => Some (mkSlide id title content None theme l)
          | Some l, Some (JString url) =>
              Some (mkSlide id title content (Some url) theme l)
          | _, _ => None
          end
      | _, _, _, _, _ => None
      end
  | _ => None
  end.

Fixpoint jsonToSlides (l : list json) : option (list Slide) :=
  match l with
  | [] => Some []
  | j :: l' =>
      match jsonToSlide j, jsonToSlides l' with
      | Some s, Some ss => Some (s :: ss)
      | _, _ => None
      end
  end.

(** [JSON.stringify(presentation.slides)] *)
Definition stringifySlides (l : list Slide) : string :=
  stringify (JArray (map slideToJson l)).

(** [JSON.parse(data[0].slides)] as a [Slide[]] *)
Definition parseSlides (blob : string) : option (list Slide) :=
  match parse blob with
  | Some (JArray l) => jsonToSlides l
  | _ => None
  end.

(** *** Predicates on values and their text *)

(** The text of a value starts with the character that selects its case in
    the parser; none of them is white space or closes a bracket. *)
Definition startsValue (c : ascii) : Prop :=
  c = "n"%char \/ c = "t"%char \/ c = "f"%char \/ c = quoteChar
  \/ c = "["%char \/ c = "{"%char.

(** The statement proved by induction: with more fuel than the length of
    its text, a value is read back from its text and the input after it is
    left. *)
Definition readsBack (j : json) : Prop :=
  forall fuel rest,
    (String.length (stringify j) < fuel)%nat ->
    parseValue fuel (stringify j +:+ rest) = Some (j, rest).

End Json.

(** ** The application shell ([App.tsx]) and the persistence gateway *)

Module App.

Record User : Type := mkUser { user_id : string }.

Inductive View : Type :=
| DashboardView
| EditorView
| ViewerView.

(** A stored presentation: the record of [blink.db.presentations], with the
    slide list as text. *)
Record Row : Type := mkRow {
  row_id : string;
  row_title : string;
  row_slides : string;
  row_theme : string;
  row_userId : string;
  row_createdAt : string;
  row_updatedAt : string
}.

(** What an awaited request settles to. *)
Inductive Response (A : Type) : Type :=
| Resolved (a : A)
| Rejected.

Arguments Resolved {A} a.
Arguments Rejected {A}.

(** Modelled from the spec: the persistence gateway [blink.db.presentations]
    (the SDK is not part of the sources).  It offers create(record),
    list(filter, order) and update(id, partial record) on records that are
    presentations with the slide list as an opaque text blob: a table of
    rows, kept as written.  [reachable] says whether the request gets
    through; a request that does not is rejected and leaves the table
    alone. *)
Definition Table : Type := list Row.

(** Modelled from the spec: create(record) appends the record. *)
Definition dbCreate (reachable : bool) (row : Row) (db : Table) : Response Table :=
  if reachable then Resolved (db ++ [row]) else Rejected.

(** Modelled from the spec: update(id, partial record) writes the given
    fields ([title], [slides], [theme], [updatedAt]) of the rows with that
    identifier. *)
Definition dbUpdate (reachable : bool) (id title slides theme updatedAt : string)
    (db : Table) : Response Table :=
  if reachable
  then Resolved
         (map (fun r =>
                 if (row_id r =? id)%string
                 then mkRow (row_id r) title slides theme (row_userId r)
                            (row_createdAt r) updatedAt
                 else r) db)
  else Rejected.

Fixpoint insertByUpdatedAtDesc (r : Row) (l : list Row) : list Row :=
  match l with
  | [] => [r]
  | x :: l' =>
      if String.leb (row_updatedAt x) (row_updatedAt r) then r :: l
      else x :: insertByUpdatedAtDesc r l'
  end.

Definition orderByUpdatedAtDesc (l : list Row) : list Row :=
  fold_right insertByUpdatedAtDesc [] l.

(** Modelled from the spec: list(filter, order) returns the rows that pass
    the filter [where_]; [newestFirst] is [orderBy: { updatedAt: 'desc' }]. *)
Definition dbList (reachable : bool) (where_ : Row -> bool) (newestFirst : bool)
    (db : Table) : Response (list Row) :=
  if reachable
  then Resolved (let found := List.filter where_ db in
                 if newestFirst then orderByUpdatedAtDesc found else found)
  else Rejected.

(** The [useState] cells of [App], and the lines written by
    [console.error].  [presentations] holds what [list] returned, rows whose
    slides are still text. *)
Record State : Type := mkState {
  user : option User;
  loading : bool;
  currentView : View;
  currentPresentation : option Presentation;
  presentations : list Row;
  console : list string
}.

Definition setPresentations (l : list Row) (s : State) : State :=
  mkState (user s) (loading s) (currentView s) (currentPresentation s) l (console s).

Definition setCurrentPresentation (p : Presentation) (s : State) : State :=
  mkState (user s) (loading s) (currentView s) (Some p) (presentations s) (console s).

Definition setCurrentView (v : View) (s : State) : State :=
  mkState (user s) (loading s) v (currentPresentation s) (presentations s) (console s).

Definition consoleError (msg : string) (s : State) : State :=
  mkState (user s) (loading s) (currentView s) (currentPresentation s)
          (presentations s) (console s ++ [msg]).

(** The cells the user interface is drawn from: everything but the
    console. *)
Definition uiState (s : State) : option User * bool * View * option Presentation * list Row :=
  (user s, loading s, currentView s, currentPresentation s, presentations s).

(** The component state together with the table behind the gateway. *)
Definition World : Type := State * Table.

(** Each function takes, for every request it awaits, whether the gateway is
    reachable at that moment. *)
Definition loadPresentations (listReachable : bool) (w : World) : World :=
  let '(s, db) := w in
  match user s with
  | None => w
  | Some u =>
      match dbList listReachable (fun r => (row_userId r =? user_id u)%string) true db with
      | Resolved data => (setPresentations data s, db)
      | Rejected => (consoleError "Failed to load presentations:" s, db)
      end
  end.

(** [{ ...data[0], slides: JSON.parse(data[0].slides) }].  The code keeps
    whatever [JSON.parse] returns; here a text that does not parse to a list
    of slides is refused like a text that does not parse at all, so the two
    agree on the texts written by [Json.stringifySlides], which are the
    texts this application writes. *)
Definition rowToPresentation (r : Row) : option Presentation :=
  match Json.parseSlides (row_slides r) with
  | Some l => Some (mkPresentation (row_id r) (row_title r) l (row_theme r)
                                   (row_createdAt r) (row_updatedAt r))
  | None => None
  end.

(** Reading [user.id] without a user raises inside the [try] block, as does
    a blob that [JSON.parse] refuses. *)
Definition openPresentation (listReachable : bool) (presentationId : string)
    (w : World) : World :=
  let '(s, db) := w in
  let failed := (consoleError "Failed to open presentation:" s, db) in
  match user s with
  | None => failed
  | Some u =>
      match dbList listReachable
              (fun r => (row_id r =? presentationId)%string
                        && (row_userId r =? user_id u)%string) false db with
      | Resolved [] => w
      | Resolved (first :: _) =>
          match rowToPresentation first with
          | Some presentation =>
              (setCurrentView EditorView (setCurrentPresentation presentation s), db)
          | None => failed
          end
      | Rejected => failed
      end
  end.

(** [isoNow] is [new Date().toISOString()] when the request is made. *)
Definition savePresentation (updateReachable listReachable : bool) (isoNow : string)
    (presentation : Presentation) (w : World) : World :=
  let '(s, db) := w in
  match dbUpdate updateReachable (pres_id presentation) (pres_title presentation)
          (Json.stringifySlides (pres_slides presentation))
          (pres_theme presentation) isoNow db with
  | Resolved db' =>
      loadPresentations listReachable (setCurrentPresentation presentation s, db')
  | Rejected => (consoleError "Failed to save presentation:" s, db)
  end.

(** One slide as the generation gateway returns it. *)
Record GeneratedSlide : Type := mkGenerated {
  gen_title : string;
  gen_content : string;
  gen_layout : Layout
}.

(** The slides of a new presentation, in [createPresentation];
    [clock index] is the value of [Date.now()] read for the slide at
    [index]. *)
Definition generatedSlides (clock : Z -> Z) (data : list GeneratedSlide) : list Slide :=
  jsMapIndex (fun index slide =>
                mkSlide ("slide-" +:+ showNumber (clock index) +:+ "-" +:+ showNumber index)
                        (gen_title slide) (gen_content slide) None "modern"
                        (gen_layout slide)) data.

End App.

(** ** Sample decks *)

Definition sampleClock (index : Z) : Z := 1699999999000.

(** A deck as generation makes it, with one slide. *)
Definition sampleGenerated : Editor.State :=
  Editor.mkState
    (mkPresentation "pres-1699999999000" "Quarterly review"
       (App.generatedSlides sampleClock
          [App.mkGenerated "Quarterly review" "Results and outlook" LTitle])
       "modern" "2023-11-14T22:13:19.000Z" "2023-11-14T22:13:19.000Z")
    0.

(** Three slides, the second one added by the editor at
    [Date.now() = 1700000000000] and selected. *)
Definition sampleThree : Editor.State :=
  Editor.mkState
    (mkPresentation "pres-1699999999000" "Quarterly review"
       [mkSlide "slide-1699999999000-0" "Quarterly review" "Results and outlook"
                None "modern" LTitle;
        mkSlide "slide-1700000000000" "New Slide" "Add your content here..."
                None "modern" LContent;
        mkSlide "slide-1699999999000-1" "Outlook" "Next quarter"
                (Some "https://example.org/outlook.png") "modern" LSplit]
       "modern" "2023-11-14T22:13:19.000Z" "2023-11-14T22:13:19.000Z")
    1.

(** A deck with a single slide. *)
Definition sampleSingle : Editor.State :=
  Editor.mkState
    (mkPresentation "pres-1699999999000" "Quarterly review"
       [mkSlide "slide-1699999999000-0" "Quarterly review" "Results and outlook"
                None "modern" LTitle]
       "modern" "2023-11-14T22:13:19.000Z" "2023-11-14T22:13:19.000Z")
    0.

(** A signed-in session with the editor open, and the table holding the row
    of its presentation as it was first stored. *)
Definition sampleUser : App.User := App.mkUser "user-1".

Definition sampleTable : App.Table :=
  [App.mkRow "pres-1699999999000" "Quarterly review" "[]" "modern" "user-1"
             "2023-11-14T22:13:19.000Z" "2023-11-14T22:13:19.000Z"].

Definition sampleApp : App.State :=
  App.mkState (Some sampleUser) false App.EditorView
              (Some (Editor.currentPresentation sampleSingle)) [] [].

(** ** What the viewer draws ([PresentationViewer.tsx]) *)

Module ViewerUi.

Import Viewer.

(** [const currentSlide = presentation.slides[currentSlideIndex]];
    [renderSlideContent] returns [null] when it is [undefined]. *)
Definition currentSlide (slides : list Slide) (s : State) : option Slide :=
  jsIndex slides (currentSlideIndex s).

(** The [disabled] attributes of the two arrow buttons. *)
Definition prevDisabled (s : State) : bool := currentSlideIndex s =? 0.

Definition nextDisabled (len : Z) (s : State) : bool :=
  currentSlideIndex s =? len - 1.

(** Autoplay running outside fullscreen, the interval just armed. *)
Definition playing (index : Z) : State :=
  mkState index false true true (Some autoPlayDelay) None.

End ViewerUi.

(** ** The editor component around its slide operations
    ([PresentationEditor.tsx]) *)

Module EditorUi.

Import Editor.

(** [const selectedSlide = currentPresentation.slides[selectedSlideIndex]] *)
Definition selectedSlide (s : State) : option Slide :=
  jsIndex (slides s) (selectedSlideIndex s).

(** Operations that give no slide a new identifier. *)
Definition keepsIds (op : Op) : Prop :=
  match op with
  | OpAdd _ | OpDuplicate _ => False
  | OpUpdate u => upd_id u = None
  | _ => True
  end.

(** The component with its two busy flags, and the lines it writes with
    [console.error]. *)
Record Session : Type := mkSession {
  cells : State;
  isGeneratingImage : bool;
  isSaving : bool;
  console : list string
}.

Definition setCells (c : State) (ses : Session) : Session :=
  mkSession c (isGeneratingImage ses) (isSaving ses) (console ses).

Definition setIsGeneratingImage (b : bool) (ses : Session) : Session :=
  mkSession (cells ses) b (isSaving ses) (console ses).

Definition consoleError (msg : string) (ses : Session) : Session :=
  mkSession (cells ses) (isGeneratingImage ses) (isSaving ses)
            (console ses ++ [msg]).

(** The prompt sent for a slide: its title and
    [content.substring(0, 100)]. *)
Definition imagePrompt (slide : Slide) : string :=
  "Create a professional presentation image for: " +:+ slide_title slide
  +:+ ". " +:+ String.substring 0 100 (slide_content slide).

(** [generateImage] up to its [await].
    - [Raises]: no slide is selected, reading [selectedSlide.title] raises;
    - [NotSent]: the slide has neither title nor content, the function
      returns;
    - [Sent prompt ses]: the busy flag is set and the request is made. *)
Inductive ImageRequest : Type :=
| Raises
| NotSent
| Sent (prompt : string) (ses : Session).

Definition generateImageStart (ses : Session) : ImageRequest :=
  match selectedSlide (cells ses) with
  | None => Raises
  | Some slide =>
      if (slide_title slide =? "")%string && (slide_content slide =? "")%string
      then NotSent
      else Sent (imagePrompt slide) (setIsGeneratingImage true ses)
  end.

(** [updateSlide({ imageUrl })] *)
Definition imageUpdate (url : string) : SlideUpdates :=
  mkUpdates None None None (Some (Some url)) None None.

(** [generateImage] after its [await].  [response] is what the request
    settled to: the [url] of each element of [data], [None] where it has
    none.  [atCall] holds the cells as they were when the function was
    called: the [updateSlide] it calls is the one of that render, which
    computes the new slides from that render's [currentPresentation] and
    [selectedSlideIndex] and sets [currentPresentation] only.  [ses] is the
    component when the request settles. *)
Definition generateImageSettle (atCall : State)
    (response : App.Response (list (option string))) (ses : Session) : Session :=
  let after :=
    match response with
    | App.Resolved (Some url :: _) =>
        if (url =? "")%string then ses
        else
          match updateSlide (imageUpdate url) atCall with
          | Done updated =>
              setCells (mkState (currentPresentation updated)
                                (selectedSlideIndex (cells ses))) ses
          | _ => ses
          end
    | App.Resolved _ => ses
    | App.Rejected => consoleError "Failed to generate image:" ses
    end in
  setIsGeneratingImage false after.

End EditorUi.

(** ** The application shell: creation, sign-in and the screens ([App.tsx]) *)

Module Shell.

Import App.

Definition setUser (u : option User) (s : State) : State :=
  mkState u (loading s) (currentView s) (currentPresentation s)
          (presentations s) (console s).

Definition setLoading (b : bool) (s : State) : State :=
  mkState (user s) b (currentView s) (currentPresentation s)
          (presentations s) (console s).

(** The [useState] initial values: nobody signed in yet, loading. *)
Definition initial : State := mkState None true DashboardView None [] [].

(** The listener of [blink.auth.onAuthStateChanged]. *)
Definition onAuthStateChanged (u : option User) (isLoading : bool) (s : State) : State :=
  setLoading isLoading (setUser u s).

(** [createPresentation(title, prompt)].  [generated] is what the generation
    request settled to (the [slides] of the object), [clock] and [nowId] the
    readings of [Date.now()] for the slide identifiers and for the
    presentation identifier, [createdAt] and [updatedAt] the two readings of
    [new Date().toISOString()].  Everything runs inside [try]: a rejected
    generation, reading [user.id] without a user, and a rejected [create]
    all end in the [catch]; [finally] clears [loading], which the first
    statement had set. *)
Definition createPresentation (generated : Response (list GeneratedSlide))
    (createReachable listReachable : bool) (clock : Z -> Z) (nowId : Z)
    (createdAt updatedAt title : string) (w : World) : World :=
  let '(s, db) := w in
  let failed :=
    (setLoading false (consoleError "Failed to create presentation:" s), db) in
  match generated with
  | Rejected => failed
  | Resolved data =>
      let slides := generatedSlides clock data in
      let presentation :=
        mkPresentation ("pres-" +:+ showNumber nowId) title slides "modern"
                       createdAt updatedAt in
      match user s with
      | None => failed
      | Some u =>
          match dbCreate createReachable
                  (mkRow (pres_id presentation) (pres_title presentation)
                         (Json.stringifySlides (pres_slides presentation))
                         (pres_theme presentation) (user_id u)
                         (pres_createdAt presentation)
                         (pres_updatedAt presentation)) db with
          | Rejected => failed
          | Resolved db' =>
              let '(s', db'') :=
                loadPresentations listReachable
                  (setCurrentView EditorView
                     (setCurrentPresentation presentation s), db') in
              (setLoading false s', db'')
          end
      end
  end.

(** What [App] returns: the two early returns, then the view selected by
    [currentView]; the editor and the viewer are only drawn with a
    presentation, and without one the page is the empty container. *)
Inductive Screen : Type :=
| LoadingScreen
| SignInScreen
| DashboardScreen
| EditorScreen (presentation : Presentation)
| ViewerScreen (presentation : Presentation)
| BlankScreen.

Definition screen (s : State) : Screen :=
  if loading s then LoadingScreen
  else match user s with
       | None => SignInScreen
       | Some _ =>
           match currentView s, currentPresentation s with
           | DashboardView, _ => DashboardScreen
           | EditorView, Some p => EditorScreen p
           | ViewerView, Some p => ViewerScreen p
           | _, None => BlankScreen
           end
       end.

(** What can happen to the shell.  The sign-in state can change and the
    list can be reloaded (the effect on [user]) at any time; the callbacks
    handed to the dashboard, the editor and the viewer arrive only while
    that component is on screen.  [screen] is what [App] returns; whether
    the component it names can itself be drawn is the matter of that
    component ([Viewer.render] for the viewer), and a callback is what the
    shell does if the component calls it. *)
Inductive Event : Type :=
| AuthStateChanged (u : option User) (isLoading : bool)
| LoadPresentations (listReachable : bool)
| CreatePresentation (generated : Response (list GeneratedSlide))
    (createReachable listReachable : bool) (clock : Z -> Z) (nowId : Z)
    (createdAt updatedAt title : string)
| OpenPresentation (listReachable : bool) (presentationId : string)
| SavePresentation (updateReachable listReachable : bool) (isoNow : string)
    (presentation : Presentation)
| EditorBack
| Present
| ViewerBack.

Definition step (w : World) (e : Event) : World :=
  let '(s, db) := w in
  match e, screen s with
  | AuthStateChanged u isLoading, _ => (onAuthStateChanged u isLoading s, db)
  | LoadPresentations listReachable, _ => loadPresentations listReachable w
  | CreatePresentation generated createReachable listReachable clock nowId
      createdAt updatedAt title, DashboardScreen =>
      createPresentation generated createReachable listReachable clock nowId
        createdAt updatedAt title w
  | OpenPresentation listReachable presentationId, DashboardScreen =>
      openPresentation listReachable presentationId w
  | SavePresentation updateReachable listReachable isoNow presentation,
    EditorScreen _ =>
      savePresentation updateReachable listReachable isoNow presentation w
  | EditorBack, EditorScreen _ => (setCurrentView DashboardView s, db)
  | Present, EditorScreen _ => (setCurrentView ViewerView s, db)
  | ViewerBack, ViewerScreen _ => (setCurrentView EditorView s, db)
  | _, _ => w
  end.

Definition run (evs : list Event) (w : World) : World :=
  fold_left step evs w.

(** A view other than the dashboard has a presentation to show. *)
Definition viewHasPresentation (s : State) : Prop :=
  currentView s <> DashboardView -> currentPresentation s <> None.

End Shell.

(** A signed-in session on the dashboard, and what a generation returns. *)
Definition sampleDashboard : App.State :=
  App.mkState (Some sampleUser) false App.DashboardView None [] [].

Definition sampleData : list App.GeneratedSlide :=
  [App.mkGenerated "Roadmap" "Where we are going" LTitle;
   App.mkGenerated "Milestones" "What ships when" LContent].

(** ** The dashboard ([Dashboard.tsx]) *)

Module Dashboard.

(** The white space of [String.prototype.trim] among 8-bit characters: tab,
    line feed, vertical tab, form feed, carriage return, space and
    no-break space. *)
Definition isTrimSpace (c : ascii) : bool :=
  match c with
  | "009"%char | "010"%char | "011"%char | "012"%char | "013"%char
  | " "%char | "160"%char => true
  | _ => false
  end.

Fixpoint trimStart (s : string) : string :=
  match s with
  | EmptyString => ""
  | String c s' => if isTrimSpace c then trimStart s' else s
  end.

Fixpoint trimEnd (s : string) : string :=
  match s with
  | EmptyString => ""
  | String c s' =>
      match trimEnd s' with
      | EmptyString => if isTrimSpace c then "" else String c ""
      | kept => String c kept
      end
  end.

(** [s.trim()] *)
Definition trim (s : string) : string := trimEnd (trimStart s).

Fixpoint isBlank (s : string) : bool :=
  match s with
  | EmptyString => true
  | String c s' => isTrimSpace c && isBlank s'
  end.

(** The four [useState] cells of the component. *)
Record State : Type := mkState {
  isCreateOpen : bool;
  title : string;
  prompt : string;
  isCreating : bool
}.

Record Template : Type := mkTemplate {
  tpl_id : string;
  tpl_title : string;
  tpl_description : string;
  tpl_prompt : string
}.

Definition templates : list Template :=
  [mkTemplate "business" "Business Pitch"
     "Professional presentation for business proposals"
     "Create a business pitch presentation with market analysis, solution overview, business model, and financial projections";
   mkTemplate "product" "Product Launch"
     "Showcase your new product or feature"
     "Create a product launch presentation with problem statement, solution features, benefits, and go-to-market strategy";
   mkTemplate "report" "Project Report"
     "Present project results and insights"
     "Create a project report presentation with objectives, methodology, key findings, and recommendations";
   mkTemplate "marketing" "Marketing Campaign"
     "Present marketing strategies and campaigns"
     "Create a marketing campaign presentation with target audience, strategy, creative concepts, and success metrics"].

Definition handleTemplateSelect (template : Template) (s : State) : State :=
  mkState (isCreateOpen s) (tpl_title template) (tpl_prompt template)
          (isCreating s).

(** The [useState] initial values. *)
Definition initial : State := mkState false "" "" false.

(** The [disabled] attribute of the button that runs [handleCreate]. *)
Definition createDisabled (s : State) : bool :=
  (trim (title s) =? "")%string || (trim (prompt s) =? "")%string
  || isCreating s.

(** [handleCreate] up to its [await]: [NotSubmitted] is the early return,
    [Submitted t p s] the call [onCreatePresentation(t, p)] with the busy
    flag set. *)
Inductive CreateRequest : Type :=
| NotSubmitted
| Submitted (title prompt : string) (s : State).

Definition handleCreateStart (s : State) : CreateRequest :=
  if (trim (title s) =? "")%string || (trim (prompt s) =? "")%string
  then NotSubmitted
  else Submitted (title s) (prompt s)
         (mkState (isCreateOpen s) (title s) (prompt s) true).

End Dashboard.

(** * Properties of the viewer *)

Module ViewerFacts.

Import Viewer.

Ltac unfold_called :=
  unfold handleKeyPress, nextSlideFrom, prevSlideFrom, toggleFullscreenFrom,
    toggleAutoPlayFrom, onMouseMove, onBack, restart, toggleAutoPlay,
    toggleFullscreen, exitFullscreen, prevSlide, nextSlide, intervalCallback,
    timeoutCallback, autoPlayEffect, autoPlayCleanup, controlsEffect,
    controlsCleanup, setCurrentSlideIndex, setIsFullscreen, setIsAutoPlay,
    setShowControls, setInterval, setTimeout in *.

(** Called on the cells of its own render, a closure is the handler. *)
Lemma closures_of_the_same_render len key s :
  nextSlideFrom len s s = nextSlide len s
  /\ prevSlideFrom s s = prevSlide s
  /\ toggleFullscreenFrom s s = toggleFullscreen s
  /\ toggleAutoPlayFrom s s = toggleAutoPlay s
  /\ (key = "ArrowRight" \/ key = " " ->
      handleKeyPress len s key s = nextSlide len s)
  /\ (key = "ArrowLeft" -> handleKeyPress len s key s = prevSlide s).
Proof.
  split_and!; try reflexivity.
  - by intros [-> | ->].
  - by intros ->.
Qed.

Lemma called_in_range len c h s :
  1 <= len -> called len c h ->
  indexInRange len c -> indexInRange len s -> indexInRange len (h s).
Proof.
  unfold indexInRange. intros Hlen Hh Hc Hs.
  destruct Hh; unfold_called; repeat case_match; simpl; lia.
Qed.

Lemma reachable_in_range len s :
  1 <= len -> reachable len s -> indexInRange len s.
Proof.
  intros Hlen Hs. induction Hs as [s Hs|c h s _ IHc _ IHs Hh].
  - unfold indexInRange. lia.
  - by eapply called_in_range.
Qed.

Lemma reachable_empty s : reachable 0 s -> currentSlideIndex s = 0.
Proof.
  intros Hs. induction Hs as [s Hs|c h s _ IHc _ IHs Hh]; [done|].
  destruct c as [ic fc ac cc ivc tc], s as [i f a sc iv t].
  simpl in IHc, IHs. subst ic i.
  destruct Hh; unfold_called; simpl; repeat case_match; simpl; done.
Qed.

(** C1.  With at least one slide, the slide index is within
    [0 .. len - 1] in all cells that calls can produce from [useState(0)]:
    next, previous and restart (by button or by key, from the closure of any
    render so far), the autoplay tick, and every other function of the
    component that writes a cell.  Each call keeps the index in range.
    [nextSlide] adds one exactly when the index is below [len - 1],
    [prevSlide] subtracts one exactly when it is above [0], [restart] sets
    it to [0], and the tick adds one below [len - 1] and leaves it alone
    otherwise. *)
Theorem viewer_index_in_range (len : Z) :
  1 <= len ->
  (forall s, reachable len s -> indexInRange len s)
  /\ (forall c h s, called len c h -> indexInRange len c ->
        indexInRange len s -> indexInRange len (h s))
  /\ (forall s, currentSlideIndex (nextSlide len s) =
                if currentSlideIndex s <? len - 1 then currentSlideIndex s + 1
                else currentSlideIndex s)
  /\ (forall s, currentSlideIndex (prevSlide s) =
                if 0 <? currentSlideIndex s then currentSlideIndex s - 1
                else currentSlideIndex s)
  /\ (forall s, currentSlideIndex (restart s) = 0)
  /\ (forall s, currentSlideIndex (intervalCallback len s) =
                if currentSlideIndex s <? len - 1 then currentSlideIndex s + 1
                else currentSlideIndex s).
Proof.
  intros Hlen. split_and!.
  - intros s. by apply reachable_in_range.
  - intros c h s Hh. by apply called_in_range.
  - intros s. unfold nextSlide. case_match; reflexivity.
  - intros s. unfold prevSlide. rewrite Z.gtb_ltb. case_match; reflexivity.
  - reflexivity.
  - intros s. unfold intervalCallback. rewrite Z.geb_leb.
    destruct (Z.leb_spec (len - 1) (currentSlideIndex s)),
      (Z.ltb_spec (currentSlideIndex s) (len - 1)); simpl; lia.
Qed.

(** Three slides, [next] four times: the index stops at 2. *)
Example next_stops_at_last_slide :
  currentSlideIndex
    (nextSlide 3 (nextSlide 3 (nextSlide 3 (nextSlide 3
       (mkState 0 false false true None None))))) = 2.
Proof. reflexivity. Qed.

(** A listener left over from the render that showed slide 0, called when
    slide 2 is shown: the index goes to 1. *)
Example stale_listener_moves_within_range :
  currentSlideIndex
    (handleKeyPress 3 (mkState 0 false false true None None) "ArrowRight"
       (mkState 2 false false true None None)) = 1.
Proof. reflexivity. Qed.

Lemma viewer_index_in_range_witness :
  1 <= 3
  /\ indexInRange 3
       (handleKeyPress 3 (mkState 0 false false true None None) "ArrowRight"
          (nextSlide 3 (nextSlide 3 (mkState 0 false false true None None)))).
Proof.
  split; [lia|].
  apply (proj1 (viewer_index_in_range 3 ltac:(lia))).
  assert (H0 : reachable 3 (mkState 0 false false true None None))
    by (by apply reach_start).
  assert (H1 : reachable 3 (nextSlide 3 (mkState 0 false false true None None))).
  { exact (reach_call 3 _ _ _ H0 H0 (c_next 3 _)). }
  assert (H2 : reachable 3 (nextSlide 3 (nextSlide 3
                              (mkState 0 false false true None None)))).
  { exact (reach_call 3 _ _ _ H1 H1 (c_next 3 _)). }
  exact (reach_call 3 _ _ _ H0 H2 (c_key 3 _ "ArrowRight")).
Defined.

(** *** Rendering *)

Lemma render_PresentationViewer :
  render PresentationViewer = ReferenceError "nextSlide".
Proof. reflexivity. Qed.

(** With the callbacks declared before the effects that list them, the same
    statements evaluate to the end and hand React the three effects. *)
Lemma render_with_declarations_first :
  render (declarationsFirst PresentationViewer)
  = Returns ["autoplay"; "keydown"; "controls"].
Proof. reflexivity. Qed.

(** A body evaluates to the end when nothing is read before its
    declaration. *)
Lemma evaluate_without_pending effects body :
  exists effects', evaluate [] effects body = Returns effects'.
Proof.
  revert effects. induction body as [|st body IH]; intros effects; simpl.
  - by eexists.
  - assert (Hnone : forall reads, uninitialisedRead [] reads = None).
    { intros reads. unfold uninitialisedRead.
      induction reads as [|x reads IHr]; simpl; done. }
    destruct st as [d r|e deps|r]; rewrite Hnone; simpl; [apply IH|apply IH|].
    by eexists.
Qed.

(** C2.  The autoplay tick, taken alone, does what is asked of it: below
    the last slide it adds one to the index and leaves autoplay on, on the
    last slide it leaves the index alone and switches autoplay off, and two
    ticks from slide 0 of a two-slide deck give index 1 with autoplay off.
    But the component cannot be drawn: evaluating its body raises a
    [ReferenceError] for [nextSlide], read by the dependency list of the
    [keydown] effect before its declaration; the render is abandoned, no
    effect is run, the autoplay effect among them, and no interval is ever
    created. *)
Theorem viewer_throws_before_any_tick :
  render PresentationViewer = ReferenceError "nextSlide"
  /\ committedEffects (render PresentationViewer) = []
  /\ (forall len s, currentSlideIndex s < len - 1 ->
        intervalCallback len s
        = setCurrentSlideIndex (currentSlideIndex s + 1) s)
  /\ (forall len s, len - 1 <= currentSlideIndex s ->
        intervalCallback len s = setIsAutoPlay false s)
  /\ (forall showControls interval timeout isFullscreen,
        intervalCallback 2
          (intervalCallback 2
             (mkState 0 isFullscreen true showControls interval timeout))
        = mkState 1 isFullscreen false showControls interval timeout).
Proof.
  split_and!; try reflexivity.
  - intros len s Hs. unfold intervalCallback. rewrite Z.geb_leb.
    destruct (Z.leb_spec (len - 1) (currentSlideIndex s)); [lia|done].
  - intros len s Hs. unfold intervalCallback. rewrite Z.geb_leb.
    destruct (Z.leb_spec (len - 1) (currentSlideIndex s)); [done|lia].
Qed.

(** *** The controls *)



End ViewerFacts.

(** * Properties of the editor *)

Module EditorFacts.

Import Editor.

(** *** The JavaScript array helpers *)

Lemma jsLength_nonneg {A} (l : list A) : 0 <= jsLength l.
Proof. unfold jsLength. lia. Qed.

Lemma jsLength_app {A} (l k : list A) : jsLength (l ++ k) = jsLength l + jsLength k.
Proof. unfold jsLength. rewrite length_app. lia. Qed.

Lemma jsIndex_lookup {A} (l : list A) i :
  0 <= i -> jsIndex l i = l !! Z.to_nat i.
Proof. intros Hi. unfold jsIndex. destruct (Z.ltb_spec i 0); [lia|done]. Qed.

Lemma jsIndex_in_range {A} (l : list A) i :
  0 <= i < jsLength l -> exists x, jsIndex l i = Some x.
Proof.
  unfold jsLength. intros Hi. rewrite jsIndex_lookup by lia.
  apply lookup_lt_is_Some. lia.
Qed.

Lemma jsIndex_Some_range {A} (l : list A) i x :
  jsIndex l i = Some x -> 0 <= i < jsLength l.
Proof.
  unfold jsIndex, jsLength. destruct (Z.ltb_spec i 0); [done|].
  intros Hx%lookup_lt_Some. lia.
Qed.

Lemma jsSlice_prefix {A} (l : list A) k :
  0 <= k <= jsLength l -> jsSlice l 0 k = take (Z.to_nat k) l.
Proof.
  intros Hk. unfold jsSlice, jsRelIndex.
  destruct (Z.ltb_spec 0 0); [lia|]. destruct (Z.ltb_spec k 0); [lia|].
  rewrite Z.min_l, Z.min_l by lia. simpl. f_equal. lia.
Qed.

Lemma jsSliceFrom_suffix {A} (l : list A) k :
  0 <= k <= jsLength l -> jsSliceFrom l k = drop (Z.to_nat k) l.
Proof.
  intros Hk. unfold jsSliceFrom, jsSlice, jsRelIndex.
  destruct (Z.ltb_spec k 0); [lia|].
  destruct (Z.ltb_spec (jsLength l) 0); [lia|].
  rewrite Z.min_l, Z.min_l by lia.
  apply take_ge. rewrite length_drop. unfold jsLength. lia.
Qed.

(** Filtering on [index !== sel] keeps every element but the one at [sel]. *)
Lemma jsFilterIndexFrom_below {A} (l : list A) i sel :
  sel < i -> jsFilterIndexFrom (fun k => negb (k =? sel)) i l = l.
Proof.
  revert i. induction l as [|x l IH]; intros i Hi; simpl; [done|].
  destruct (Z.eqb_spec i sel); [lia|]. simpl. f_equal. apply IH. lia.
Qed.

Lemma jsFilterIndexFrom_delete {A} (l : list A) i sel :
  i <= sel ->
  jsFilterIndexFrom (fun k => negb (k =? sel)) i l = delete (Z.to_nat (sel - i)) l.
Proof.
  revert i. induction l as [|x l IH]; intros i Hi; simpl; [done|].
  destruct (Z.eqb_spec i sel) as [->|Hne]; simpl.
  - rewrite Z.sub_diag. simpl. apply jsFilterIndexFrom_below. lia.
  - rewrite IH by lia.
    replace (Z.to_nat (sel - i)) with (S (Z.to_nat (sel - (i + 1)))) by lia.
    reflexivity.
Qed.

Lemma jsFilterIndex_delete {A} (l : list A) sel :
  0 <= sel ->
  jsFilterIndex (fun k => negb (k =? sel)) l = delete (Z.to_nat sel) l.
Proof.
  intros Hsel. unfold jsFilterIndex. rewrite jsFilterIndexFrom_delete by done.
  by rewrite Z.sub_0_r.
Qed.

Lemma jsLength_filter_index {A} (l : list A) sel :
  jsLength l - 1 <= jsLength (jsFilterIndex (fun k => negb (k =? sel)) l)
                 <= jsLength l.
Proof.
  unfold jsFilterIndex, jsLength.
  destruct (Z.lt_ge_cases sel 0) as [Hneg|Hpos].
  - rewrite jsFilterIndexFrom_below by done. lia.
  - rewrite jsFilterIndexFrom_delete by done.
    rewrite delete_take_drop, length_app, length_take, length_drop. lia.
Qed.

Lemma jsLength_filter_index_valid {A} (l : list A) sel :
  0 <= sel < jsLength l ->
  jsLength (jsFilterIndex (fun k => negb (k =? sel)) l) = jsLength l - 1.
Proof.
  intros Hsel. rewrite jsFilterIndex_delete by lia. unfold jsLength in *.
  rewrite length_delete; [lia|]. apply lookup_lt_is_Some. lia.
Qed.

Lemma jsLength_jsMapIndex {A B} (f : Z -> A -> B) l :
  jsLength (jsMapIndex f l) = jsLength l.
Proof. unfold jsLength, jsMapIndex. by rewrite length_imap. Qed.


(** *** What each operation does on a valid selection *)

Lemma slides_withSlides p l i : slides (mkState (withSlides p l) i) = l.
Proof. reflexivity. Qed.

Lemma duplicateSlide_valid now s :
  selectionValid s ->
  exists src,
    jsIndex (slides s) (selectedSlideIndex s) = Some src
    /\ duplicateSlide now s =
       Done (mkState
               (withSlides (currentPresentation s)
                  (take (S (Z.to_nat (selectedSlideIndex s))) (slides s)
                   ++ [mkSlide ("slide-" +:+ showNumber now)
                               (slide_title src +:+ " (Copy)")
                               (slide_content src) (slide_imageUrl src)
                               (slide_theme src) (slide_layout src)]
                   ++ drop (S (Z.to_nat (selectedSlideIndex s))) (slides s)))
               (selectedSlideIndex s + 1)).
Proof.
  intros Hsel. destruct (jsIndex_in_range _ _ Hsel) as [src Hsrc].
  exists src. split; [done|]. unfold duplicateSlide. rewrite Hsrc.
  unfold selectionValid in Hsel.
  rewrite jsSlice_prefix, jsSliceFrom_suffix by lia.
  replace (Z.to_nat (selectedSlideIndex s + 1))
    with (S (Z.to_nat (selectedSlideIndex s))) by lia.
  reflexivity.
Qed.

Lemma deleteSlide_valid s :
  selectionValid s -> 1 < jsLength (slides s) ->
  deleteSlide s =
  Done (mkState (withSlides (currentPresentation s)
                   (delete (Z.to_nat (selectedSlideIndex s)) (slides s)))
                (Z.max 0 (selectedSlideIndex s - 1))).
Proof.
  intros Hsel Hlen. unfold deleteSlide.
  destruct (Z.leb_spec (jsLength (slides s)) 1); [lia|].
  rewrite jsFilterIndex_delete by (unfold selectionValid in Hsel; lia).
  reflexivity.
Qed.

Lemma moveSlide_valid d s :
  selectionValid s ->
  let newIndex := match d with
                  | Up => selectedSlideIndex s - 1
                  | Down => selectedSlideIndex s + 1
                  end in
  0 <= newIndex < jsLength (slides s) ->
  exists atNew atCurrent,
    jsIndex (slides s) newIndex = Some atNew
    /\ jsIndex (slides s) (selectedSlideIndex s) = Some atCurrent
    /\ moveSlide d s =
       Done (mkState
               (withSlides (currentPresentation s)
                  (<[Z.to_nat newIndex := atCurrent]>
                     (<[Z.to_nat (selectedSlideIndex s) := atNew]> (slides s))))
               newIndex).
Proof.
  intros Hsel newIndex Hnew.
  destruct (jsIndex_in_range _ _ Hsel) as [atCurrent Hcur].
  destruct (jsIndex_in_range _ _ Hnew) as [atNew HatNew].
  exists atNew, atCurrent. split_and!; try done.
  unfold moveSlide. fold newIndex.
  destruct (Z.ltb_spec newIndex 0); [lia|].
  destruct (Z.geb_spec newIndex (jsLength (slides s))); [lia|]. simpl.
  by rewrite HatNew, Hcur.
Qed.

(** C3.  From a deck with at least one slide, an operation that completes
    leaves at least one slide, and unless it is a delete it does not
    shorten the deck; deleting from a deck of exactly one slide completes
    and changes nothing; on a valid selection every operation completes. *)
Theorem slide_count_never_below_one (op : Op) (s : State) :
  1 <= jsLength (slides s) ->
  (forall s', exec op s = Done s' ->
     1 <= jsLength (slides s')
     /\ (op <> OpDelete -> jsLength (slides s) <= jsLength (slides s')))
  /\ (jsLength (slides s) = 1 -> deleteSlide s = Done s)
  /\ (selectionValid s -> exists s', exec op s = Done s').
Proof.
  intros Hlen. split_and!.
  - intros s' Hexec. destruct op; simpl in Hexec.
    + injection Hexec as <-. unfold slides in *. simpl.
      rewrite jsLength_app. unfold jsLength in *. simpl. lia.
    + unfold duplicateSlide in Hexec.
      destruct (jsIndex (slides s) (selectedSlideIndex s)) as [src|] eqn:Hsrc;
        [|done].
      apply jsIndex_Some_range in Hsrc.
      rewrite jsSlice_prefix, jsSliceFrom_suffix in Hexec by lia.
      injection Hexec as <-. unfold slides in *. simpl.
      rewrite !jsLength_app. unfold jsLength in *. simpl.
      rewrite length_take, length_drop. lia.
    + unfold deleteSlide in Hexec.
      destruct (Z.leb_spec (jsLength (slides s)) 1).
      * injection Hexec as <-. split; [lia|done].
      * injection Hexec as <-. split; [|done]. unfold slides in *. simpl.
        pose proof (jsLength_filter_index (pres_slides (currentPresentation s))
                      (selectedSlideIndex s)). lia.
    + unfold moveSlide in Hexec.
      repeat case_match; try done; injection Hexec as <-;
        unfold slides in *; simpl; unfold jsLength in *;
        rewrite ?length_insert; lia.
    + injection Hexec as <-. unfold slides in *. simpl.
      rewrite jsLength_jsMapIndex. lia.
    + injection Hexec as <-. unfold slides in *. simpl. lia.
    + injection Hexec as <-. unfold slides in *. simpl. lia.
  - intros H1. unfold deleteSlide. rewrite H1. reflexivity.
  - intros Hsel. destruct op; simpl; try (eexists; reflexivity).
    + destruct (duplicateSlide_valid now s Hsel) as (src & _ & ->). eauto.
    + unfold deleteSlide. case_match; eauto.
    + unfold moveSlide. case_match; [eauto|].
      apply orb_false_elim in H as [H1 H2].
      apply Z.ltb_ge in H1. rewrite Z.geb_leb in H2. apply Z.leb_gt in H2.
      destruct (jsIndex_in_range _ _ Hsel) as [atCurrent ->].
      destruct (jsIndex_in_range (slides s)
                  (match direction with
                   | Up => selectedSlideIndex s - 1
                   | Down => selectedSlideIndex s + 1
                   end)) as [atNew ->]; [lia|]. eauto.
Qed.


(** C6.  On a valid selection: moving the first slide up, or the last
    slide down, completes and changes nothing.  Any other move completes,
    exchanges the selected slide with its neighbour in that direction,
    leaves every other position, the length and the rest of the
    presentation as they were, and selects the position the slide moved
    to. *)
Theorem moveSlide_swaps_with_neighbour (d : Direction) (s : State) :
  selectionValid s ->
  let newIndex := match d with
                  | Up => selectedSlideIndex s - 1
                  | Down => selectedSlideIndex s + 1
                  end in
  (selectedSlideIndex s = 0 -> moveSlide Up s = Done s)
  /\ (selectedSlideIndex s = jsLength (slides s) - 1 -> moveSlide Down s = Done s)
  /\ (0 <= newIndex < jsLength (slides s) ->
      exists s',
        moveSlide d s = Done s'
        /\ selectedSlideIndex s' = newIndex
        /\ jsIndex (slides s') newIndex = jsIndex (slides s) (selectedSlideIndex s)
        /\ jsIndex (slides s') (selectedSlideIndex s) = jsIndex (slides s) newIndex
        /\ (forall i, i <> selectedSlideIndex s -> i <> newIndex ->
              jsIndex (slides s') i = jsIndex (slides s) i)
        /\ jsLength (slides s') = jsLength (slides s)
        /\ currentPresentation s' =
           withSlides (currentPresentation s) (slides s')).
Proof.
  intros Hsel newIndex. split_and!.
  - intros H0. unfold moveSlide. rewrite H0. reflexivity.
  - intros Hlast. unfold moveSlide. rewrite Hlast.
    destruct (Z.geb_spec (jsLength (slides s) - 1 + 1) (jsLength (slides s)));
      [|lia].
    by rewrite orb_true_r.
  - intros Hnew.
    destruct (moveSlide_valid d s Hsel Hnew) as (atNew & atCur & HatNew & HatCur & ->).
    fold newIndex in HatNew |- *.
    eexists. split; [reflexivity|].
    assert (Hne : Z.to_nat (selectedSlideIndex s) <> Z.to_nat newIndex).
    { unfold selectionValid in Hsel. subst newIndex. destruct d; lia. }
    unfold selectionValid, jsLength in Hsel. unfold jsLength in Hnew.
    rewrite !slides_withSlides. simpl. split_and!.
    + reflexivity.
    + rewrite jsIndex_lookup, HatCur by lia.
      apply list_lookup_insert_eq. rewrite length_insert. lia.
    + rewrite jsIndex_lookup, HatNew by lia.
      rewrite list_lookup_insert_ne by done.
      apply list_lookup_insert_eq. lia.
    + intros i Hi1 Hi2. unfold jsIndex.
      destruct (Z.ltb_spec i 0); [done|].
      rewrite !list_lookup_insert_ne by lia. done.
    + unfold jsLength. by rewrite !length_insert.
    + reflexivity.
Qed.

(** C7.  On a valid selection every operation completes, and the selected
    index of the state it produces is again the position of a slide. *)
Theorem selection_stays_valid (op : Op) (s : State) :
  selectionValid s ->
  exists s', exec op s = Done s' /\ selectionValid s'.
Proof.
  intros Hsel. pose proof Hsel as Hrange. unfold selectionValid in Hrange.
  destruct op; simpl.
  - eexists. split; [reflexivity|]. unfold selectionValid, slides. simpl.
    rewrite jsLength_app. unfold jsLength. simpl. lia.
  - destruct (duplicateSlide_valid now s Hsel) as (src & _ & ->).
    eexists. split; [reflexivity|]. unfold selectionValid, slides. simpl.
    rewrite !jsLength_app. unfold jsLength in *. simpl.
    rewrite length_take, length_drop. unfold slides in *. lia.
  - destruct (Z.le_gt_cases (jsLength (slides s)) 1) as [Hle|Hgt].
    + exists s. split; [|done]. unfold deleteSlide.
      destruct (Z.leb_spec (jsLength (slides s)) 1); [done|lia].
    + rewrite deleteSlide_valid by (done || lia).
      eexists. split; [reflexivity|]. unfold selectionValid, slides. simpl.
      unfold jsLength in *. rewrite length_delete.
      * unfold slides in *. lia.
      * apply lookup_lt_is_Some. unfold slides in *. lia.
  - set (newIndex := match direction with
                     | Up => selectedSlideIndex s - 1
                     | Down => selectedSlideIndex s + 1
                     end).
    destruct (decide (0 <= newIndex < jsLength (slides s))) as [Hnew|Hout].
    + destruct (moveSlide_valid direction s Hsel Hnew) as (a & b & _ & _ & ->).
      eexists. split; [reflexivity|]. unfold selectionValid, slides. simpl.
      unfold jsLength in *. rewrite !length_insert. exact Hnew.
    + exists s. split; [|done]. unfold moveSlide. fold newIndex.
      destruct (Z.ltb_spec newIndex 0); [done|].
      destruct (Z.geb_spec newIndex (jsLength (slides s))); [done|lia].
  - eexists. split; [reflexivity|]. unfold selectionValid, slides. simpl.
    rewrite jsLength_jsMapIndex. exact Hrange.
  - eexists. split; [reflexivity|]. exact Hrange.
  - eexists. split; [reflexivity|]. exact Hrange.
Qed.

(** Duplicating on a valid selection: the copy sits right after its source
    and is selected, the slides up to the source keep their positions, the
    later ones move down by one; the copy has the title of the source with
    the suffix, the identifier made from the clock, and the other fields
    of the source. *)
Lemma duplicateSlide_inserts_after_source now s :
  selectionValid s ->
  exists src copy s',
    jsIndex (slides s) (selectedSlideIndex s) = Some src
    /\ duplicateSlide now s = Done s'
    /\ selectedSlideIndex s' = selectedSlideIndex s + 1
    /\ jsLength (slides s') = jsLength (slides s) + 1
    /\ jsIndex (slides s') (selectedSlideIndex s + 1) = Some copy
    /\ (forall i, i <= selectedSlideIndex s ->
          jsIndex (slides s') i = jsIndex (slides s) i)
    /\ (forall i, selectedSlideIndex s < i ->
          jsIndex (slides s') (i + 1) = jsIndex (slides s) i)
    /\ copy = mkSlide ("slide-" +:+ showNumber now)
                      (slide_title src +:+ " (Copy)")
                      (slide_content src) (slide_imageUrl src)
                      (slide_theme src) (slide_layout src)
    /\ currentPresentation s' = withSlides (currentPresentation s) (slides s').
Proof.
  intros Hsel. destruct (duplicateSlide_valid now s Hsel) as (src & Hsrc & Hdup).
  exists src. eexists. eexists. split; [done|]. split; [exact Hdup|].
  unfold selectionValid, jsLength in Hsel.
  assert (Htake : length (take (S (Z.to_nat (selectedSlideIndex s))) (slides s))
                  = S (Z.to_nat (selectedSlideIndex s))).
  { rewrite length_take. lia. }
  rewrite !slides_withSlides. simpl. split_and!.
  - reflexivity.
  - rewrite !jsLength_app. unfold jsLength. simpl.
    rewrite Htake, length_drop. lia.
  - rewrite jsIndex_lookup by lia.
    rewrite lookup_app_r by lia. rewrite Htake.
    replace (Z.to_nat (selectedSlideIndex s + 1) - S (Z.to_nat (selectedSlideIndex s)))%nat
      with 0%nat by lia.
    reflexivity.
  - intros i Hi. unfold jsIndex. destruct (Z.ltb_spec i 0); [done|].
    rewrite lookup_app_l by lia. apply lookup_take_lt. lia.
  - intros i Hi. rewrite !jsIndex_lookup by lia.
    rewrite lookup_app_r by lia. rewrite Htake.
    replace (Z.to_nat (i + 1) - S (Z.to_nat (selectedSlideIndex s)))%nat
      with (S (Z.to_nat i - S (Z.to_nat (selectedSlideIndex s))))%nat by lia.
    simpl. rewrite lookup_drop. f_equal. lia.
  - reflexivity.
  - reflexivity.
Qed.


(** *** Slide identifiers *)

(** The identifiers after an add or a duplicate: those of the deck, and the
    one made from the clock. *)
Lemma addSlide_ids now s :
  exists s', addSlide now s = Done s'
             /\ slideIds s' = slideIds s ++ ["slide-" +:+ showNumber now].
Proof.
  eexists. split; [reflexivity|]. unfold slideIds. rewrite slides_withSlides.
  by rewrite fmap_app.
Qed.

Lemma duplicateSlide_ids now s :
  selectionValid s ->
  exists s', duplicateSlide now s = Done s'
             /\ slideIds s' ≡ₚ ("slide-" +:+ showNumber now) :: slideIds s.
Proof.
  intros Hsel. destruct (duplicateSlide_valid now s Hsel) as (src & _ & ->).
  eexists. split; [reflexivity|]. unfold slideIds. rewrite slides_withSlides.
  rewrite !fmap_app. simpl.
  rewrite <- Permutation_middle.
  by rewrite <- fmap_app, take_drop.
Qed.

(** As long as no slide of the deck carries the identifier of the current
    millisecond, adding or duplicating keeps the identifiers distinct. *)
Lemma new_id_distinct_when_clock_is_new now op s :
  (op = OpAdd now \/ op = OpDuplicate now) ->
  selectionValid s -> NoDup (slideIds s) ->
  ("slide-" +:+ showNumber now) ∉ slideIds s ->
  exists s', exec op s = Done s' /\ NoDup (slideIds s').
Proof.
  intros [-> | ->] Hsel Hnodup Hnew; simpl.
  - destruct (addSlide_ids now s) as (s' & -> & Hids).
    eexists. split; [reflexivity|]. rewrite Hids.
    apply NoDup_app. split_and!; [done| |apply NoDup_singleton].
    intros x Hx ->%list_elem_of_singleton. done.
  - destruct (duplicateSlide_ids now s Hsel) as (s' & -> & Hids).
    eexists. split; [reflexivity|]. rewrite Hids. by apply NoDup_cons.
Qed.

(** C8 at its failing input.  A deck of one generated slide, whose
    identifiers are distinct; two slides are added while [Date.now()] reads
    the same millisecond: both get the identifier [slide-1700000000000]. *)
Theorem same_millisecond_adds_share_an_id :
  NoDup (slideIds sampleGenerated)
  /\ exists s',
       execAll [OpAdd 1700000000000; OpAdd 1700000000000] sampleGenerated = Some s'
       /\ slideIds s' = ["slide-1699999999000-0"; "slide-1700000000000";
                         "slide-1700000000000"]
       /\ ~ NoDup (slideIds s').
Proof.
  split.
  - apply (bool_decide_eq_true_1 _). vm_compute. reflexivity.
  - eexists. split; [vm_compute; reflexivity|]. split; [reflexivity|].
    apply (bool_decide_eq_false_1 _). vm_compute. reflexivity.
Qed.

(** C5 at its failing input.  The second slide of a deck of three was added
    in the millisecond in which it is now duplicated.  The copy goes to
    index 2, is selected, has the suffixed title, and the deck has four
    slides; but the copy has the identifier of its source. *)
Theorem duplicate_in_same_millisecond_reuses_id :
  exists src copy s',
    jsIndex (slides sampleThree) 1 = Some src
    /\ duplicateSlide 1700000000000 sampleThree = Done s'
    /\ jsLength (slides s') = 4
    /\ selectedSlideIndex s' = 2
    /\ jsIndex (slides s') 2 = Some copy
    /\ slide_title copy = slide_title src +:+ " (Copy)"
    /\ slide_id copy = slide_id src
    /\ slide_id copy ∈ slideIds sampleThree.
Proof.
  do 3 eexists. split_and!; try (vm_compute; reflexivity).
  apply (bool_decide_eq_true_1 _). vm_compute. reflexivity.
Qed.


Lemma sampleThree_valid : selectionValid sampleThree.
Proof. unfold selectionValid, sampleThree, slides, jsLength. simpl. lia. Defined.

Lemma slide_count_never_below_one_witness :
  1 <= jsLength (slides sampleSingle)
  /\ deleteSlide sampleSingle = Done sampleSingle.
Proof.
  assert (H : 1 <= jsLength (slides sampleSingle))
    by (unfold sampleSingle, slides, jsLength; simpl; lia).
  split; [exact H|].
  exact (proj1 (proj2 (slide_count_never_below_one OpDelete sampleSingle H)) eq_refl).
Defined.

Lemma moveSlide_swaps_with_neighbour_witness :
  selectionValid sampleThree
  /\ 0 <= 1 + 1 < jsLength (slides sampleThree)
  /\ exists s', moveSlide Down sampleThree = Done s'
                /\ selectedSlideIndex s' = 1 + 1.
Proof.
  assert (Hnew : 0 <= 1 + 1 < jsLength (slides sampleThree))
    by (unfold sampleThree, slides, jsLength; simpl; lia).
  split; [exact sampleThree_valid|]. split; [exact Hnew|].
  destruct (proj2 (proj2 (moveSlide_swaps_with_neighbour Down sampleThree
                            sampleThree_valid)) Hnew) as (s' & H1 & H2 & _).
  exists s'. split; assumption.
Defined.

Lemma selection_stays_valid_witness :
  selectionValid sampleThree
  /\ exists s', exec OpDelete sampleThree = Done s' /\ selectionValid s'.
Proof.
  split; [exact sampleThree_valid|].
  exact (selection_stays_valid OpDelete sampleThree sampleThree_valid).
Defined.

End EditorFacts.

(** * Identifiers given at generation *)

Module IdFacts.

Lemma hasDash_append a b : hasDash (a +:+ b) = hasDash a || hasDash b.
Proof.
  induction a as [|c a IH]; [done|].
  change (String c a +:+ b) with (String c (a +:+ b)). simpl.
  by rewrite IH, orb_assoc.
Qed.

Lemma afterLastDash_append a b :
  hasDash b = false -> afterLastDash (a +:+ "-" +:+ b) = b.
Proof.
  intros Hb. induction a as [|c a IH].
  - change ("" +:+ "-" +:+ b) with (String "-" b). simpl. by rewrite Hb.
  - change (String c a +:+ "-" +:+ b) with (String c (a +:+ "-" +:+ b)).
    cbn [afterLastDash]. rewrite hasDash_append.
    change ("-" +:+ b) with (String "-" b). simpl.
    rewrite orb_true_r. exact IH.
Qed.

Lemma pretty_N_char_no_dash x : Ascii.eqb (pretty_N_char x) "-" = false.
Proof. unfold pretty_N_char. by repeat case_match. Qed.

Lemma pretty_N_go_no_dash x s :
  hasDash s = false -> hasDash (pretty_N_go x s) = false.
Proof.
  revert s. induction (N.lt_wf_0 x) as [x _ IH]; intros s Hs.
  assert (x = 0 \/ 0 < x)%N as [->|Hx] by lia.
  - by rewrite pretty_N_go_0.
  - rewrite pretty_N_go_step by done. apply IH.
    + by apply N.div_lt.
    + simpl. by rewrite pretty_N_char_no_dash.
Qed.

Lemma showNumber_no_dash n : 0 <= n -> hasDash (showNumber n) = false.
Proof.
  intros Hn. unfold showNumber, pretty, pretty_Z.
  destruct n as [|p|p]; [done| |lia].
  unfold pretty, pretty_positive, pretty, pretty_N.
  case_decide; [done|]. by apply pretty_N_go_no_dash.
Qed.

(** The identifiers given at generation are distinct, whatever the clock
    reads: they end in the position of the slide. *)
Lemma generatedSlides_ids_distinct clock data :
  NoDup (slide_id <$> App.generatedSlides clock data).
Proof.
  apply NoDup_alt. intros i j id Hi Hj.
  unfold App.generatedSlides, jsMapIndex in *.
  rewrite list_lookup_fmap, list_lookup_imap in Hi, Hj.
  destruct (data !! i) as [di|]; [|done].
  destruct (data !! j) as [dj|]; [|done].
  pose proof (eq_trans Hi (eq_sym Hj)) as Heq.
  apply (inj Some) in Heq. cbn [slide_id] in Heq.
  apply (f_equal afterLastDash) in Heq.
  assert (Hcut : forall t k : Z, 0 <= k ->
            afterLastDash ("slide-" +:+ showNumber t +:+ "-" +:+ showNumber k)
            = showNumber k).
  { intros t k Hk.
    exact (afterLastDash_append ("slide-" +:+ showNumber t) (showNumber k)
             (showNumber_no_dash k Hk)). }
  rewrite !Hcut in Heq by lia.
  apply (inj pretty) in Heq. lia.
Qed.

End IdFacts.

(** * Properties of the text form and of persistence *)

Module JsonFacts.

Import Json.

Local Open Scope nat_scope.

(** [String.append] does not unfold under [simpl]; these are its
    equations. *)
Lemma append_nil (b : string) : "" +:+ b = b.
Proof. reflexivity. Qed.

Lemma append_cons (x : ascii) (a b : string) : String x a +:+ b = String x (a +:+ b).
Proof. reflexivity. Qed.

Lemma append_assoc (a b c : string) : (a +:+ b) +:+ c = a +:+ (b +:+ c).
Proof.
  induction a as [|x a IH]; [done|]. rewrite !append_cons. by f_equal.
Qed.

Lemma append_empty_r (a : string) : a +:+ "" = a.
Proof. induction a as [|x a IH]; [done|]. rewrite append_cons. by f_equal. Qed.

Lemma length_append (a b : string) :
  String.length (a +:+ b) = String.length a + String.length b.
Proof.
  induction a as [|x a IH]; [done|]. rewrite append_cons. simpl. by f_equal.
Qed.

(** *** Strings *)

Lemma parse_escapeChar c tail :
  parseStringBody (escapeChar c +:+ tail) = consChar c (parseStringBody tail).
Proof. destruct c as [[] [] [] [] [] [] [] []]; reflexivity. Qed.

Lemma parse_escapeString s rest :
  parseStringBody (escapeString s +:+ String quoteChar rest) = Some (s, rest).
Proof.
  induction s as [|c s IH]; [reflexivity|].
  cbn [escapeString]. rewrite append_assoc, parse_escapeChar, IH. reflexivity.
Qed.

Lemma quoteJSONString_append s rest :
  quoteJSONString s +:+ rest
  = String quoteChar (escapeString s +:+ String quoteChar rest).
Proof. unfold quoteJSONString. by rewrite append_cons, append_assoc. Qed.


(** *** Values *)

(** Induction on values, with the hypothesis available for every element
    and every member. *)
Lemma json_nested_ind (P : json -> Prop) :
  P JNull ->
  (forall b, P (JBool b)) ->
  (forall s, P (JString s)) ->
  (forall l, Forall P l -> P (JArray l)) ->
  (forall l, Forall (fun kv => P (snd kv)) l -> P (JObject l)) ->
  forall j, P j.
Proof.
  intros Hnull Hbool Hstr Harr Hobj.
  refine (fix go (j : json) : P j :=
            match j with
            | JNull => Hnull
            | JBool b => Hbool b
            | JString s => Hstr s
            | JArray l =>
                Harr l ((fix all (l : list json) : Forall P l :=
                           match l with
                           | [] => Forall_nil_2 _
                           | x :: l' => Forall_cons_2 _ _ _ (go x) (all l')
                           end) l)
            | JObject l =>
                Hobj l ((fix all (l : list (string * json))
                           : Forall (fun kv => P (snd kv)) l :=
                           match l with
                           | [] => Forall_nil_2 _
                           | kv :: l' =>
                               Forall_cons_2 (fun kv => P (snd kv)) _ _
                                 (go (snd kv)) (all l')
                           end) l)
            end).
Qed.

Lemma stringify_head j rest :
  exists c s, stringify j +:+ rest = String c s /\ startsValue c.
Proof.
  unfold startsValue.
  destruct j as [|[]|s|l|l]; cbn [stringify]; rewrite ?quoteJSONString_append,
    ?append_cons; eauto 10.
Qed.

Lemma parseElements_concat x l :
  Forall readsBack (x :: l) ->
  forall fuel rest,
    String.length (String.concat "," (map stringify (x :: l))) + 1 < fuel ->
    parseElements fuel
      (String.concat "," (map stringify (x :: l)) +:+ "]" +:+ rest)
    = Some (x :: l, rest).
Proof.
  revert x. induction l as [|y l IH]; intros x Hall fuel rest Hfuel.
  - apply Forall_cons_1 in Hall as [Hx _]. cbn [map String.concat] in *.
    destruct fuel as [|fuel]; [lia|].
    cbn [parseElements]. rewrite Hx by lia. reflexivity.
  - apply Forall_cons_1 in Hall as [Hx Hall].
    change (String.concat "," (map stringify (x :: y :: l)))
      with (stringify x +:+ "," +:+ String.concat "," (map stringify (y :: l)))
      in *.
    rewrite !length_append in Hfuel. cbn [String.length] in Hfuel.
    destruct fuel as [|fuel]; [lia|].
    cbn [parseElements]. rewrite !append_assoc.
    rewrite Hx by lia.
    rewrite append_cons, append_nil. cbn [skipWhitespace isWhitespace].
    rewrite IH; [reflexivity|done|lia].
Qed.

Lemma parseMembers_concat k v l :
  Forall (fun kv => readsBack (snd kv)) ((k, v) :: l) ->
  forall fuel rest,
    String.length
      (String.concat ","
         (map (fun kv => match kv with
                         | (k, v) => quoteJSONString k +:+ ":" +:+ stringify v
                         end) ((k, v) :: l))) + 1 < fuel ->
    parseMembers fuel
      (String.concat ","
         (map (fun kv => match kv with
                         | (k, v) => quoteJSONString k +:+ ":" +:+ stringify v
                         end) ((k, v) :: l)) +:+ "}" +:+ rest)
    = Some ((k, v) :: l, rest).
Proof.
  revert k v. induction l as [|[k' v'] l IH]; intros k v Hall fuel rest Hfuel.
  - apply Forall_cons_1 in Hall as [Hv _]. cbn [map String.concat snd] in *.
    rewrite !length_append in Hfuel. cbn [String.length] in Hfuel.
    destruct fuel as [|fuel]; [lia|].
    cbn [parseMembers]. rewrite !append_assoc, quoteJSONString_append.
    cbn [skipWhitespace isWhitespace quoteChar].
    rewrite parse_escapeString.
    rewrite append_cons, append_nil. cbn [skipWhitespace isWhitespace].
    rewrite Hv by lia. reflexivity.
  - apply Forall_cons_1 in Hall as [Hv Hall]. cbn [snd] in Hv.
    set (member := fun kv : string * json =>
                     match kv with
                     | (k, v) => quoteJSONString k +:+ ":" +:+ stringify v
                     end) in *.
    change (String.concat "," (map member ((k, v) :: (k', v') :: l)))
      with ((quoteJSONString k +:+ ":" +:+ stringify v) +:+ ","
            +:+ String.concat "," (map member ((k', v') :: l))) in *.
    rewrite !length_append in Hfuel. cbn [String.length] in Hfuel.
    destruct fuel as [|fuel]; [lia|].
    cbn [parseMembers]. rewrite !append_assoc, quoteJSONString_append.
    cbn [skipWhitespace isWhitespace quoteChar].
    rewrite parse_escapeString.
    rewrite append_cons, append_nil. cbn [skipWhitespace isWhitespace].
    rewrite Hv by lia.
    rewrite append_cons, append_nil. cbn [skipWhitespace isWhitespace].
    rewrite IH; [reflexivity|done|lia].
Qed.

Lemma stringify_readsBack j : readsBack j.
Proof.
  induction j as [|b|s|l IH|l IH] using json_nested_ind;
    intros fuel rest Hfuel; (destruct fuel as [|fuel]; [lia|]).
  - reflexivity.
  - destruct b; reflexivity.
  - cbn [stringify]. rewrite quoteJSONString_append.
    cbn [parseValue skipWhitespace isWhitespace quoteChar].
    rewrite parse_escapeString. reflexivity.
  - cbn [stringify] in *. rewrite !append_cons, append_nil in *.
    rewrite append_assoc. simpl in Hfuel. rewrite length_append in Hfuel.
    destruct l as [|x l].
    + reflexivity.
    + cbn [parseValue skipWhitespace isWhitespace].
      rewrite (parseElements_concat x l IH) by (simpl in *; lia).
      destruct (stringify_head x
                  (match map stringify l with
                   | [] => ""
                   | _ :: _ => "," +:+ String.concat "," (map stringify l)
                   end +:+ "]" +:+ rest)) as (c & s & Hcs & Hc).
      assert (Hhead : String.concat "," (map stringify (x :: l)) +:+ "]" +:+ rest
                      = String c s).
      { rewrite <- Hcs. cbn [map String.concat].
        destruct (map stringify l); [done|]. by rewrite !append_assoc. }
      rewrite Hhead.
      destruct Hc as [->|[->|[->|[->|[->| ->]]]]]; reflexivity.
  - cbn [stringify] in *. rewrite !append_cons, append_nil in *.
    rewrite append_assoc. simpl in Hfuel. rewrite length_append in Hfuel.
    destruct l as [|[k v] l].
    + reflexivity.
    + cbn [parseValue skipWhitespace isWhitespace].
      rewrite (parseMembers_concat k v l IH) by (simpl in *; lia).
      set (member := fun kv : string * json =>
                       match kv with
                       | (k, v) => quoteJSONString k +:+ ":" +:+ stringify v
                       end) in *.
      assert (Hhead : exists s,
                 String.concat "," (map member ((k, v) :: l)) +:+ "}" +:+ rest
                 = String quoteChar s).
      { cbn [map]. unfold member at 1.
        destruct (map member l); cbn [String.concat];
          rewrite !append_assoc, quoteJSONString_append; eauto. }
      destruct Hhead as [s ->]. reflexivity.
Qed.

(** [JSON.parse(JSON.stringify(v))] is [v]. *)
Lemma parse_stringify j : parse (stringify j) = Some j.
Proof.
  unfold parse.
  rewrite <- (append_empty_r (stringify j)) at 2.
  rewrite stringify_readsBack by lia. reflexivity.
Qed.


(** *** Slides *)

Lemma layoutOfName_layoutName l : layoutOfName (layoutName l) = Some l.
Proof. by destruct l. Qed.

Lemma jsonToSlide_slideToJson s : jsonToSlide (slideToJson s) = Some s.
Proof. destruct s as [id title content [url|] theme []]; reflexivity. Qed.

Lemma jsonToSlides_slideToJson l : jsonToSlides (map slideToJson l) = Some l.
Proof.
  induction l as [|s l IH]; [done|].
  cbn [map jsonToSlides]. by rewrite jsonToSlide_slideToJson, IH.
Qed.

Lemma parseSlides_stringifySlides l : parseSlides (stringifySlides l) = Some l.
Proof.
  unfold parseSlides, stringifySlides. rewrite parse_stringify.
  apply jsonToSlides_slideToJson.
Qed.

End JsonFacts.

Module AppFacts.

Import App.

(** *** The gateway *)

(** After an update that got through, every row with the given identifier
    carries the fields written, and keeps its owner. *)
Lemma dbUpdate_rows id title blob theme updatedAt (db db' : Table) r :
  dbUpdate true id title blob theme updatedAt db = Resolved db' ->
  r ∈ db' -> row_id r = id ->
  row_title r = title /\ row_slides r = blob /\ row_theme r = theme
  /\ row_updatedAt r = updatedAt.
Proof.
  unfold dbUpdate. intros [= <-] Hin Hid.
  apply list_elem_of_fmap in Hin as (r0 & -> & _).
  destruct (String.eqb_spec (row_id r0) id) as [_|Hne]; [done|].
  by destruct Hne.
Qed.

Lemma dbUpdate_keeps_owner id title blob theme updatedAt (db db' : Table) r :
  dbUpdate true id title blob theme updatedAt db = Resolved db' ->
  r ∈ db ->
  exists r', r' ∈ db' /\ row_id r' = row_id r /\ row_userId r' = row_userId r.
Proof.
  unfold dbUpdate. intros [= <-] Hin.
  eexists. split; [apply list_elem_of_fmap; eauto|].
  by destruct (row_id r =? id)%string.
Qed.

Lemma loadPresentations_keeps reachable s db :
  snd (loadPresentations reachable (s, db)) = db
  /\ user (fst (loadPresentations reachable (s, db))) = user s
  /\ currentPresentation (fst (loadPresentations reachable (s, db)))
     = currentPresentation s
  /\ currentView (fst (loadPresentations reachable (s, db))) = currentView s.
Proof.
  unfold loadPresentations. destruct (user s) as [u|] eqn:Hu; [|done].
  destruct reachable; simpl; done.
Qed.

(** C4.  The text written for a list of slides parses back to the same
    list, slide for slide and in the same order.  Hence, with a reachable
    gateway holding a row of the user for the presentation, saving the
    presentation and opening it again by its identifier puts into the
    editor a presentation with the same slides in the same order (and the
    title and theme that were saved). *)
Theorem slides_survive_save_and_open
    (s : State) (db : Table) (u : User) (p : Presentation)
    (isoNow : string) (listReachable : bool) :
  user s = Some u ->
  (exists r, r ∈ db /\ row_id r = pres_id p /\ row_userId r = user_id u) ->
  (forall l, Json.parseSlides (Json.stringifySlides l) = Some l)
  /\ exists p' db',
       openPresentation true (pres_id p)
         (savePresentation true listReachable isoNow p (s, db))
       = (setCurrentView EditorView
            (setCurrentPresentation p'
               (fst (savePresentation true listReachable isoNow p (s, db)))),
          db')
       /\ pres_slides p' = pres_slides p
       /\ pres_id p' = pres_id p
       /\ pres_title p' = pres_title p
       /\ pres_theme p' = pres_theme p
       /\ pres_updatedAt p' = isoNow.
Proof.
  intros Hu (r & Hr & Hid & Howner).
  split; [apply JsonFacts.parseSlides_stringifySlides|].
  unfold savePresentation.
  destruct (dbUpdate true (pres_id p) (pres_title p)
              (Json.stringifySlides (pres_slides p)) (pres_theme p) isoNow db)
    as [db1|] eqn:Hupd; [|done].
  destruct (dbUpdate_keeps_owner _ _ _ _ _ _ _ r Hupd Hr) as (r1 & Hr1 & Hid1 & Hown1).
  pose proof (loadPresentations_keeps listReachable (setCurrentPresentation p s) db1)
    as (Hdb & Huser & _ & _).
  destruct (loadPresentations listReachable (setCurrentPresentation p s, db1))
    as [s2 db2] eqn:Hload.
  simpl in Hdb, Huser. subst db2.
  unfold openPresentation. rewrite Huser. simpl. rewrite Hu.
  set (wanted := fun r0 => ((row_id r0 =? pres_id p)%string
                            && (row_userId r0 =? user_id u)%string)%bool).
  assert (Hfound : r1 ∈ List.filter wanted db1).
  { apply list_elem_of_In, filter_In. split; [by apply list_elem_of_In|].
    unfold wanted. rewrite Hid1, Hid, Hown1, Howner.
    by rewrite !String.eqb_refl. }
  destruct (List.filter wanted db1) as [|first rows] eqn:Hrows.
  { by apply elem_of_nil in Hfound. }
  assert (Hfirst : first ∈ db1 /\ wanted first = true).
  { assert (Hin : In first (List.filter wanted db1))
      by (rewrite Hrows; by left).
    apply filter_In in Hin as [Hin Hw]. split; [by apply list_elem_of_In|done]. }
  destruct Hfirst as [Hin Hw].
  apply andb_prop in Hw as [Hw _]. apply String.eqb_eq in Hw.
  destruct (dbUpdate_rows _ _ _ _ _ _ _ first Hupd Hin Hw) as (Ht & Hs & Hth & Hupdated).
  unfold rowToPresentation. rewrite Hs, JsonFacts.parseSlides_stringifySlides.
  eexists. eexists. split; [reflexivity|]. simpl. done.
Qed.


Lemma slides_survive_save_and_open_witness :
  user sampleApp = Some sampleUser
  /\ (exists r, r ∈ sampleTable
                /\ row_id r = pres_id (Editor.currentPresentation sampleThree)
                /\ row_userId r = user_id sampleUser)
  /\ exists p' db',
       openPresentation true (pres_id (Editor.currentPresentation sampleThree))
         (savePresentation true true "2023-11-14T22:13:20.000Z"
            (Editor.currentPresentation sampleThree) (sampleApp, sampleTable))
       = (setCurrentView EditorView
            (setCurrentPresentation p'
               (fst (savePresentation true true "2023-11-14T22:13:20.000Z"
                       (Editor.currentPresentation sampleThree)
                       (sampleApp, sampleTable)))),
          db')
       /\ pres_slides p' = pres_slides (Editor.currentPresentation sampleThree).
Proof.
  assert (Hrow : exists r, r ∈ sampleTable
                   /\ row_id r = pres_id (Editor.currentPresentation sampleThree)
                   /\ row_userId r = user_id sampleUser).
  { eexists. split; [apply list_elem_of_here|]. split; reflexivity. }
  split; [reflexivity|]. split; [exact Hrow|].
  destruct (proj2 (slides_survive_save_and_open sampleApp sampleTable sampleUser
                     (Editor.currentPresentation sampleThree)
                     "2023-11-14T22:13:20.000Z" true eq_refl Hrow))
    as (p' & db' & Hopen & Hslides & _).
  exists p', db'. split; assumption.
Defined.

(** C9.  A rejected request is caught and logged, and nothing else
    changes.  A save whose update is rejected, a load or an open whose list
    is rejected: the cells the interface is drawn from and the stored table
    are what they were, and the console has one more line.  Opening is all or
    nothing also when the request gets through: either the editor shows the
    stored presentation or no cell changed.  When the update of a save got
    through and only the reload that follows is rejected, the saved
    presentation is current and the list is what it was. *)
Theorem rejected_request_leaves_ui_state (s : State) (db : Table) :
  (forall listReachable isoNow p,
     let w := savePresentation false listReachable isoNow p (s, db) in
     uiState (fst w) = uiState s /\ snd w = db
     /\ console (fst w) = console s ++ ["Failed to save presentation:"])
  /\ (let w := loadPresentations false (s, db) in
      uiState (fst w) = uiState s /\ snd w = db
      /\ console (fst w) =
         match user s with
         | Some _ => console s ++ ["Failed to load presentations:"]
         | None => console s
         end)
  /\ (forall presentationId,
        let w := openPresentation false presentationId (s, db) in
        uiState (fst w) = uiState s /\ snd w = db
        /\ console (fst w) = console s ++ ["Failed to open presentation:"])
  /\ (forall reachable presentationId,
        let w := openPresentation reachable presentationId (s, db) in
        snd w = db
        /\ (uiState (fst w) = uiState s
            \/ exists p, fst w = setCurrentView EditorView (setCurrentPresentation p s)))
  /\ (forall isoNow p,
        let w := savePresentation true false isoNow p (s, db) in
        currentPresentation (fst w) = Some p
        /\ presentations (fst w) = presentations s).
Proof.
  split_and!.
  - intros listReachable isoNow p. simpl. done.
  - unfold loadPresentations. destruct (user s); simpl; done.
  - intros presentationId. unfold openPresentation.
    destruct (user s); simpl; done.
  - intros reachable presentationId. unfold openPresentation.
    destruct (user s) as [u|]; [|simpl; auto].
    destruct reachable; simpl; [|auto].
    destruct (List.filter _ db) as [|first rows]; [simpl; auto|].
    destruct (rowToPresentation first) as [p|]; simpl; eauto.
  - intros isoNow p. unfold savePresentation, loadPresentations. simpl.
    destruct (user s); simpl; done.
Qed.

End AppFacts.

(** * Further properties of the viewer *)

Module ViewerUiFacts.

Import Viewer ViewerUi.

(** X7.  The arrow buttons are disabled exactly when pressing them would do
    nothing: with the index in range, the previous button is disabled if
    and only if [prevSlide] leaves the state as it is, and likewise the next
    button and [nextSlide]. *)
Theorem disabled_buttons_are_the_no_ops (len : Z) (s : State) :
  indexInRange len s ->
  (prevDisabled s = true <-> prevSlide s = s)
  /\ (nextDisabled len s = true <-> nextSlide len s = s).
Proof.
  unfold indexInRange, prevDisabled, nextDisabled, prevSlide, nextSlide.
  destruct s as [i f a c iv t]. simpl. intros Hi.
  destruct (Z.eqb_spec i 0), (Z.eqb_spec i (len - 1)),
    (Z.gtb_spec i 0), (Z.ltb_spec i (len - 1));
    try lia; unfold setCurrentSlideIndex; simpl;
    (split; split; intros Heq; try done; try (injection Heq; lia)).
Qed.

Lemma disabled_buttons_are_the_no_ops_witness :
  indexInRange 3 (playing 2)
  /\ nextDisabled 3 (playing 2) = true
  /\ nextSlide 3 (playing 2) = playing 2.
Proof.
  assert (H : indexInRange 3 (playing 2)) by (unfold indexInRange; simpl; lia).
  split; [exact H|]. split; [reflexivity|].
  exact (proj1 (proj2 (disabled_buttons_are_the_no_ops 3 (playing 2) H)) eq_refl).
Defined.

(** X8.  There is always a slide to draw, unless the deck is empty.  For a
    deck with at least one slide, in all cells that calls can produce from
    [useState(0)], [currentSlide] is a slide of the deck.  For an empty
    deck, the index stays 0 whatever is called and [currentSlide] is never
    defined. *)
Theorem current_slide_is_defined (slides : list Slide) (s : State) :
  reachable (jsLength slides) s ->
  (slides <> [] ->
     exists slide, currentSlide slides s = Some slide /\ slide ∈ slides)
  /\ (slides = [] -> currentSlideIndex s = 0 /\ currentSlide slides s = None).
Proof.
  intros Hs. split.
  - intros Hne.
    assert (Hlen : 1 <= jsLength slides).
    { destruct slides; [done|]. unfold jsLength. simpl. lia. }
    pose proof (ViewerFacts.reachable_in_range _ _ Hlen Hs) as Hr.
    unfold indexInRange in Hr. unfold currentSlide.
    destruct (EditorFacts.jsIndex_in_range slides (currentSlideIndex s))
      as [slide Hslide]; [lia|].
    exists slide. split; [done|].
    unfold jsIndex in Hslide. case_match; [done|].
    by eapply list_elem_of_lookup_2.
  - intros ->. unfold jsLength in Hs. simpl in Hs.
    apply ViewerFacts.reachable_empty in Hs.
    split; [done|]. unfold currentSlide, jsIndex. by case_match.
Qed.

Lemma current_slide_is_defined_witness :
  Editor.slides sampleThree <> []
  /\ exists slide,
       currentSlide (Editor.slides sampleThree)
         (nextSlide 3 (nextSlide 3 (mkState 0 false false true None None)))
       = Some slide
       /\ slide ∈ Editor.slides sampleThree.
Proof.
  assert (H : Editor.slides sampleThree <> []) by discriminate.
  split; [exact H|].
  assert (H0 : reachable (jsLength (Editor.slides sampleThree))
                 (mkState 0 false false true None None))
    by (by apply reach_start).
  assert (H1 : reachable (jsLength (Editor.slides sampleThree))
                 (nextSlide 3 (mkState 0 false false true None None))).
  { exact (reach_call _ _ _ _ H0 H0 (c_next _ _)). }
  assert (H2 : reachable (jsLength (Editor.slides sampleThree))
                 (nextSlide 3 (nextSlide 3 (mkState 0 false false true None None)))).
  { exact (reach_call _ _ _ _ H1 H1 (c_next _ _)). }
  exact (proj1 (current_slide_is_defined (Editor.slides sampleThree) _ H2) H).
Defined.

End ViewerUiFacts.

(** * Further properties of the editor *)

Module EditorUiFacts.

Import Editor EditorUi.

Lemma withSlides_same p : withSlides p (pres_slides p) = p.
Proof. by destruct p. Qed.

Lemma withSlides_withSlides p l k : withSlides (withSlides p l) k = withSlides p k.
Proof. reflexivity. Qed.

Lemma jsIndex_None_out {A} (l : list A) i :
  i < 0 \/ jsLength l <= i -> jsIndex l i = None.
Proof.
  unfold jsIndex, jsLength. intros Hi. destruct (Z.ltb_spec i 0); [done|].
  apply lookup_ge_None. lia.
Qed.

(** X9.  Deleting, with a valid selection and more than one slide, removes
    exactly the selected slide: the slides before it keep their positions,
    the slides after it move up by one, nothing else of the presentation
    changes, and the selection moves to the previous position, or stays at
    0. *)
Theorem deleteSlide_removes_the_selected_slide (s : State) :
  selectionValid s -> 1 < jsLength (slides s) ->
  exists s',
    deleteSlide s = Done s'
    /\ jsLength (slides s') = jsLength (slides s) - 1
    /\ selectedSlideIndex s' = Z.max 0 (selectedSlideIndex s - 1)
    /\ (forall i, i < selectedSlideIndex s ->
          jsIndex (slides s') i = jsIndex (slides s) i)
    /\ (forall i, selectedSlideIndex s <= i ->
          jsIndex (slides s') i = jsIndex (slides s) (i + 1))
    /\ currentPresentation s' = withSlides (currentPresentation s) (slides s').
Proof.
  intros Hsel Hlen. rewrite (EditorFacts.deleteSlide_valid s Hsel Hlen).
  eexists. split; [reflexivity|].
  unfold selectionValid, jsLength in *.
  rewrite !EditorFacts.slides_withSlides. simpl. split_and!.
  - unfold jsLength. rewrite length_delete; [lia|].
    apply lookup_lt_is_Some. lia.
  - reflexivity.
  - intros i Hi. unfold jsIndex. destruct (Z.ltb_spec i 0); [done|].
    apply list_lookup_delete_lt. lia.
  - intros i Hi. rewrite !EditorFacts.jsIndex_lookup by lia.
    rewrite list_lookup_delete_ge by lia. f_equal. lia.
  - reflexivity.
Qed.

Lemma deleteSlide_removes_the_selected_slide_witness :
  selectionValid sampleThree /\ 1 < jsLength (slides sampleThree)
  /\ exists s', deleteSlide sampleThree = Done s'
                /\ jsLength (slides s') = jsLength (slides sampleThree) - 1.
Proof.
  assert (Hlen : 1 < jsLength (slides sampleThree))
    by (unfold sampleThree, slides, jsLength; simpl; lia).
  split; [exact EditorFacts.sampleThree_valid|]. split; [exact Hlen|].
  destruct (deleteSlide_removes_the_selected_slide sampleThree
              EditorFacts.sampleThree_valid Hlen) as (s' & H1 & H2 & _).
  exists s'. split; assumption.
Defined.

(** X10.  Adding a slide, whatever the state: every slide keeps its position,
    the new slide comes last and is selected; it has the default title and
    content, the [content] layout, no image, and the theme of the
    presentation. *)
Theorem addSlide_appends_a_default_slide (now : Z) (s : State) :
  exists s',
    addSlide now s = Done s'
    /\ jsLength (slides s') = jsLength (slides s) + 1
    /\ selectedSlideIndex s' = jsLength (slides s)
    /\ (forall i, i < jsLength (slides s) ->
          jsIndex (slides s') i = jsIndex (slides s) i)
    /\ jsIndex (slides s') (jsLength (slides s))
       = Some (mkSlide ("slide-" +:+ showNumber now) "New Slide"
                       "Add your content here..." None
                       (pres_theme (currentPresentation s)) LContent)
    /\ selectionValid s'
    /\ currentPresentation s' = withSlides (currentPresentation s) (slides s').
Proof.
  eexists. split; [reflexivity|].
  unfold selectionValid. rewrite !EditorFacts.slides_withSlides. simpl.
  rewrite EditorFacts.jsLength_app. unfold jsLength. simpl. split_and!; try lia.
  - intros i Hi. unfold jsIndex. destruct (Z.ltb_spec i 0); [done|].
    apply lookup_app_l. lia.
  - rewrite EditorFacts.jsIndex_lookup by lia.
    rewrite lookup_app_r by lia.
    replace (Z.to_nat (Z.of_nat (length (slides s))) - length (slides s))%nat
      with 0%nat by lia.
    reflexivity.
  - reflexivity.
Qed.

(** X11.  A field edit touches the selected slide only.  The slide at the
    selected index becomes the slide with the given fields replaced and the
    other fields kept; every other slide, the number of slides, the
    selection and the rest of the presentation stay as they are; when the
    selection designates no slide, no slide changes. *)
Theorem updateSlide_touches_only_the_selected_slide (u : SlideUpdates) (s : State) :
  exists s',
    updateSlide u s = Done s'
    /\ selectedSlideIndex s' = selectedSlideIndex s
    /\ jsLength (slides s') = jsLength (slides s)
    /\ jsIndex (slides s') (selectedSlideIndex s)
       = (fun slide => applyUpdates slide u)
           <$> jsIndex (slides s) (selectedSlideIndex s)
    /\ (forall i, i <> selectedSlideIndex s ->
          jsIndex (slides s') i = jsIndex (slides s) i)
    /\ (~ selectionValid s -> s' = s)
    /\ (upd_id u = None -> slideIds s' = slideIds s)
    /\ currentPresentation s' = withSlides (currentPresentation s) (slides s').
Proof.
  eexists. split; [reflexivity|].
  rewrite !EditorFacts.slides_withSlides. simpl.
  assert (Hlookup : forall i : Z,
    jsIndex (jsMapIndex
               (fun index slide =>
                  if index =? selectedSlideIndex s then applyUpdates slide u
                  else slide) (slides s)) i
    = (fun slide => if i =? selectedSlideIndex s then applyUpdates slide u
                    else slide) <$> jsIndex (slides s) i).
  { intros i. unfold jsIndex, jsMapIndex.
    destruct (Z.ltb_spec i 0); [done|].
    rewrite list_lookup_imap. by rewrite Z2Nat.id by lia. }
  split_and!.
  - reflexivity.
  - apply EditorFacts.jsLength_jsMapIndex.
  - rewrite Hlookup, Z.eqb_refl. reflexivity.
  - intros i Hi. rewrite Hlookup.
    destruct (Z.eqb_spec i (selectedSlideIndex s)); [done|].
    by destruct (jsIndex (slides s) i).
  - intros Hinv. destruct s as [p sel]. unfold slides in *. simpl in *.
    assert (Hsame : jsMapIndex
                      (fun index slide =>
                         if index =? sel then applyUpdates slide u else slide)
                      (pres_slides p) = pres_slides p).
    { apply list_eq. intros n.
      unfold jsMapIndex. rewrite list_lookup_imap.
      destruct (pres_slides p !! n) as [x|] eqn:Hx; [|done]. simpl.
      destruct (Z.eqb_spec (Z.of_nat n) sel) as [<-|]; [|done].
      exfalso. apply Hinv. unfold selectionValid, slides, jsLength. simpl.
      apply lookup_lt_Some in Hx. lia. }
    by rewrite Hsame, withSlides_same.
  - intros Hid. unfold slideIds. rewrite EditorFacts.slides_withSlides.
    apply list_eq. intros n. unfold jsMapIndex.
    rewrite !list_lookup_fmap, list_lookup_imap.
    destruct (slides s !! n) as [x|]; [|done]. simpl.
    destruct (Z.of_nat n =? selectedSlideIndex s); [|done].
    unfold applyUpdates. simpl. by rewrite Hid.
  - reflexivity.
Qed.


(** *** Operations that undo each other *)

(** Exchanging two cells twice gives the list back. *)
Lemma swap_twice {A} (l : list A) (i j : nat) (x y : A) :
  l !! i = Some x -> l !! j = Some y ->
  <[i := x]> (<[j := y]> (<[j := x]> (<[i := y]> l))) = l.
Proof.
  intros Hi Hj. apply list_eq. intros n.
  pose proof (lookup_lt_Some _ _ _ Hi). pose proof (lookup_lt_Some _ _ _ Hj).
  destruct (decide (n = i)) as [->|Hni].
  - rewrite list_lookup_insert_eq by (rewrite !length_insert; lia). done.
  - rewrite list_lookup_insert_ne by done.
    destruct (decide (n = j)) as [->|Hnj].
    + rewrite list_lookup_insert_eq by (rewrite !length_insert; lia). done.
    + by rewrite !list_lookup_insert_ne by done.
Qed.

Lemma moveSlide_back (d d' : Direction) (s : State) :
  selectionValid s ->
  d <> d' ->
  0 <= match d with
       | Up => selectedSlideIndex s - 1
       | Down => selectedSlideIndex s + 1
       end < jsLength (slides s) ->
  exists s', moveSlide d s = Done s' /\ moveSlide d' s' = Done s.
Proof.
  intros Hsel Hd Hnew.
  destruct (EditorFacts.moveSlide_valid d s Hsel Hnew)
    as (atNew & atCur & HatNew & HatCur & Hmove).
  eexists. split; [exact Hmove|].
  set (newIndex := match d with
                   | Up => selectedSlideIndex s - 1
                   | Down => selectedSlideIndex s + 1
                   end) in *.
  set (s' := mkState _ newIndex).
  assert (Hrange : 0 <= selectedSlideIndex s < jsLength (slides s)) by exact Hsel.
  assert (Hne : Z.to_nat (selectedSlideIndex s) <> Z.to_nat newIndex)
    by (subst newIndex; destruct d; lia).
  rewrite EditorFacts.jsIndex_lookup in HatNew, HatCur by lia.
  assert (Hlen' : jsLength (slides s') = jsLength (slides s)).
  { unfold s'. rewrite EditorFacts.slides_withSlides. unfold jsLength.
    by rewrite !length_insert. }
  assert (Hsel' : selectionValid s').
  { unfold selectionValid. rewrite Hlen'. exact Hnew. }
  assert (Hback : match d' with
                  | Up => selectedSlideIndex s' - 1
                  | Down => selectedSlideIndex s' + 1
                  end = selectedSlideIndex s).
  { unfold s', newIndex. simpl. destruct d, d'; try done; lia. }
  assert (Hnew' : 0 <= match d' with
                       | Up => selectedSlideIndex s' - 1
                       | Down => selectedSlideIndex s' + 1
                       end < jsLength (slides s'))
    by (rewrite Hback, Hlen'; exact Hrange).
  destruct (EditorFacts.moveSlide_valid d' s' Hsel' Hnew')
    as (a & b & Ha & Hb & ->).
  rewrite Hback in *.
  unfold jsLength in *.
  rewrite EditorFacts.jsIndex_lookup in Ha, Hb by (unfold s'; simpl; lia).
  unfold s' in Ha, Hb. rewrite EditorFacts.slides_withSlides in Ha, Hb.
  simpl in Hb.
  rewrite list_lookup_insert_ne in Ha by done.
  rewrite list_lookup_insert_eq in Ha by lia.
  rewrite list_lookup_insert_eq in Hb by (rewrite length_insert; lia).
  injection Ha as <-. injection Hb as <-.
  unfold s'. rewrite EditorFacts.slides_withSlides. simpl.
  rewrite swap_twice by done.
  by destruct s as [[] sel].
Qed.

(** X12.  Moving a slide up and then down, or down and then up, away from the
    boundary and with a valid selection, gives back the state one started
    from: the same slides in the same order and the same selection. *)
Theorem moveSlide_there_and_back (s : State) :
  selectionValid s ->
  (0 < selectedSlideIndex s ->
     exists s', moveSlide Up s = Done s' /\ moveSlide Down s' = Done s)
  /\ (selectedSlideIndex s < jsLength (slides s) - 1 ->
      exists s', moveSlide Down s = Done s' /\ moveSlide Up s' = Done s).
Proof.
  intros Hsel. pose proof Hsel as Hr. unfold selectionValid in Hr. split.
  - intros H0. apply moveSlide_back; [done|done|lia].
  - intros H1. apply moveSlide_back; [done|done|lia].
Qed.

Lemma moveSlide_there_and_back_witness :
  selectionValid sampleThree /\ 0 < selectedSlideIndex sampleThree
  /\ exists s', moveSlide Up sampleThree = Done s'
                /\ moveSlide Down s' = Done sampleThree.
Proof.
  split; [exact EditorFacts.sampleThree_valid|]. split; [reflexivity|].
  exact (proj1 (moveSlide_there_and_back sampleThree EditorFacts.sampleThree_valid)
           eq_refl).
Defined.

Lemma delete_inserted {A} (l : list A) (n : nat) (x : A) :
  (n < length l)%nat ->
  delete (S n) (take (S n) l ++ x :: drop (S n) l) = l.
Proof.
  intros Hn. rewrite delete_take_drop.
  assert (Htake : length (take (S n) l) = S n) by (rewrite length_take; lia).
  rewrite <- Htake at 1. rewrite take_app_length.
  replace (S (S n)) with (length (take (S n) l) + 1)%nat by lia.
  rewrite drop_app_add. simpl. rewrite drop_0. apply take_drop.
Qed.

Lemma delete_appended {A} (l : list A) (x : A) :
  delete (length l) (l ++ [x]) = l.
Proof.
  rewrite delete_take_drop, take_app_length.
  rewrite drop_ge by (rewrite length_app; simpl; lia).
  apply app_nil_r.
Qed.

(** X13.  Deleting right after duplicating, on a valid selection, gives back
    the state before the duplication.  Deleting right after adding, on a
    deck that had a slide, gives back the slides, with the last one
    selected. *)
Theorem delete_undoes_duplicate_and_add (now : Z) (s : State) :
  selectionValid s ->
  (exists s', duplicateSlide now s = Done s' /\ deleteSlide s' = Done s)
  /\ (exists s', addSlide now s = Done s'
                 /\ deleteSlide s' =
                    Done (mkState (currentPresentation s)
                                  (jsLength (slides s) - 1))).
Proof.
  intros Hsel. pose proof Hsel as Hr. unfold selectionValid, jsLength in Hr.
  split.
  - destruct (EditorFacts.duplicateSlide_valid now s Hsel) as (src & _ & ->).
    eexists. split; [reflexivity|].
    assert (Htake : length (take (S (Z.to_nat (selectedSlideIndex s))) (slides s))
                    = S (Z.to_nat (selectedSlideIndex s)))
      by (rewrite length_take; lia).
    rewrite EditorFacts.deleteSlide_valid.
    + rewrite EditorFacts.slides_withSlides. simpl.
      replace (Z.to_nat (selectedSlideIndex s + 1))
        with (S (Z.to_nat (selectedSlideIndex s))) by lia.
      rewrite delete_inserted by lia.
      replace (Z.max 0 (selectedSlideIndex s + 1 - 1)) with (selectedSlideIndex s)
        by lia.
      by destruct s as [[] sel].
    + unfold selectionValid. rewrite EditorFacts.slides_withSlides.
      cbn [selectedSlideIndex]. unfold jsLength.
      rewrite !length_app, Htake, length_drop. simpl. lia.
    + rewrite EditorFacts.slides_withSlides.
      unfold jsLength. rewrite !length_app, Htake, length_drop. simpl. lia.
  - eexists. split; [reflexivity|].
    rewrite EditorFacts.deleteSlide_valid.
    + rewrite EditorFacts.slides_withSlides. simpl.
      rewrite EditorFacts.jsLength_app.
      replace (jsLength (slides s) + jsLength [_] - 1) with (jsLength (slides s))
        by (unfold jsLength; simpl; lia).
      unfold jsLength at 1. rewrite Nat2Z.id, delete_appended.
      replace (Z.max 0 (jsLength (slides s) - 1)) with (jsLength (slides s) - 1)
        by (unfold jsLength; lia).
      by destruct s as [[] sel].
    + unfold selectionValid. rewrite EditorFacts.slides_withSlides. simpl.
      rewrite EditorFacts.jsLength_app. unfold jsLength. simpl. lia.
    + rewrite EditorFacts.slides_withSlides, EditorFacts.jsLength_app.
      unfold jsLength. simpl. lia.
Qed.

Lemma delete_undoes_duplicate_and_add_witness :
  selectionValid sampleThree
  /\ exists s', duplicateSlide 1700000000500 sampleThree = Done s'
                /\ deleteSlide s' = Done sampleThree.
Proof.
  split; [exact EditorFacts.sampleThree_valid|].
  exact (proj1 (delete_undoes_duplicate_and_add 1700000000500 sampleThree
                  EditorFacts.sampleThree_valid)).
Defined.


(** *** Identifiers under the operations that create none *)

Lemma swap_lookup {A} (l : list A) (n c : nat) (a b : A) (k : nat) :
  l !! n = Some a -> l !! c = Some b ->
  (<[n := b]> (<[c := a]> l)) !! k
  = l !! (if decide (k = n) then c else if decide (k = c) then n else k).
Proof.
  intros Hn Hc.
  pose proof (lookup_lt_Some _ _ _ Hn). pose proof (lookup_lt_Some _ _ _ Hc).
  destruct (decide (k = n)) as [->|Hkn].
  - rewrite list_lookup_insert_eq by (rewrite length_insert; lia). done.
  - rewrite list_lookup_insert_ne by done.
    destruct (decide (k = c)) as [->|Hkc].
    + rewrite list_lookup_insert_eq by lia. done.
    + by rewrite list_lookup_insert_ne.
Qed.

Lemma swap_keeps_elements {A} (l : list A) (n c : nat) (a b : A) :
  l !! n = Some a -> l !! c = Some b ->
  (forall x, x ∈ <[n := b]> (<[c := a]> l) -> x ∈ l)
  /\ (NoDup l -> NoDup (<[n := b]> (<[c := a]> l))).
Proof.
  intros Hn Hc. split.
  - intros x [k Hk]%list_elem_of_lookup_1.
    rewrite (swap_lookup l n c a b k Hn Hc) in Hk.
    by eapply list_elem_of_lookup_2.
  - intros Hnd. apply NoDup_alt. intros i j x Hi Hj.
    rewrite (swap_lookup l n c a b i Hn Hc) in Hi.
    rewrite (swap_lookup l n c a b j Hn Hc) in Hj.
    pose proof (proj1 (NoDup_alt l) Hnd _ _ _ Hi Hj) as Heq.
    repeat case_decide; lia.
Qed.

Lemma exec_keeps_ids op s s' :
  keepsIds op -> exec op s = Done s' ->
  (forall x, x ∈ slideIds s' -> x ∈ slideIds s)
  /\ (NoDup (slideIds s) -> NoDup (slideIds s')).
Proof.
  intros Hop Hexec. destruct op; simpl in Hop, Hexec; try done.
  - unfold deleteSlide in Hexec. case_match; injection Hexec as <-; [done|].
    unfold slideIds. rewrite EditorFacts.slides_withSlides.
    assert (Hsub : jsFilterIndex
                     (fun index => negb (index =? selectedSlideIndex s)) (slides s)
                   `sublist_of` slides s).
    { unfold jsFilterIndex.
      destruct (Z.lt_ge_cases (selectedSlideIndex s) 0).
      - by rewrite EditorFacts.jsFilterIndexFrom_below.
      - rewrite EditorFacts.jsFilterIndexFrom_delete by done.
        apply sublist_delete. }
    apply (fmap_sublist slide_id) in Hsub. split.
    + intros x Hx. by eapply elem_of_sublist.
    + intros Hnd. by eapply sublist_NoDup.
  - unfold moveSlide in Hexec. case_match; [by injection Hexec as <-|].
    destruct (jsIndex (slides s) _) as [atNew|] eqn:HatNew; [|done].
    destruct (jsIndex (slides s) (selectedSlideIndex s)) as [atCur|] eqn:HatCur;
      [|done].
    injection Hexec as <-.
    unfold slideIds. rewrite EditorFacts.slides_withSlides.
    rewrite !list_fmap_insert.
    pose proof (EditorFacts.jsIndex_Some_range _ _ _ HatNew).
    pose proof (EditorFacts.jsIndex_Some_range _ _ _ HatCur).
    rewrite EditorFacts.jsIndex_lookup in HatNew, HatCur by lia.
    apply swap_keeps_elements; rewrite list_lookup_fmap.
    + by rewrite HatNew.
    + by rewrite HatCur.
  - injection Hexec as <-. unfold slideIds.
    rewrite EditorFacts.slides_withSlides.
    assert (Hsame : slide_id <$> jsMapIndex
              (fun index slide =>
                 if index =? selectedSlideIndex s then applyUpdates slide updates
                 else slide) (slides s) = slide_id <$> slides s).
    { apply list_eq. intros n. unfold jsMapIndex.
      rewrite !list_lookup_fmap, list_lookup_imap.
      destruct (slides s !! n) as [x|]; [|done]. simpl.
      destruct (Z.of_nat n =? selectedSlideIndex s); [|done].
      unfold applyUpdates. simpl. by rewrite Hop. }
    rewrite Hsame. done.
  - injection Hexec as <-. done.
  - injection Hexec as <-. done.
Qed.


(** X14.  Only adding, duplicating and an update that names an identifier
    can bring a new identifier into the deck.  After any sequence of the
    other operations (delete, move, field edits, title, theme), every
    identifier of the deck was there before, and identifiers that were
    distinct are still distinct. *)
Theorem ids_survive_operations_that_create_none (ops : list Op) (s s' : State) :
  Forall keepsIds ops -> execAll ops s = Some s' ->
  (forall x, x ∈ slideIds s' -> x ∈ slideIds s)
  /\ (NoDup (slideIds s) -> NoDup (slideIds s')).
Proof.
  intros Hops. revert s.
  induction Hops as [|op ops Hop Hops IH]; intros s Hexec; simpl in Hexec.
  - by injection Hexec as <-.
  - destruct (exec op s) as [s1| |] eqn:Hop1; [|by apply IH|done].
    destruct (exec_keeps_ids op s s1 Hop Hop1) as [Hin Hnd].
    destruct (IH s1 Hexec) as [Hin' Hnd']. split; auto.
Qed.

Lemma ids_survive_operations_that_create_none_witness :
  Forall keepsIds [OpMove Down; OpDelete; OpMove Up]
  /\ (exists s', execAll [OpMove Down; OpDelete; OpMove Up] sampleThree = Some s'
                 /\ NoDup (slideIds s')).
Proof.
  assert (Hops : Forall keepsIds [OpMove Down; OpDelete; OpMove Up])
    by (repeat constructor).
  split; [exact Hops|].
  eexists. split; [vm_compute; reflexivity|].
  refine (proj2 (ids_survive_operations_that_create_none _ sampleThree _ Hops _) _).
  - vm_compute. reflexivity.
  - apply (bool_decide_eq_true_1 _). vm_compute. reflexivity.
Defined.

(** *** Sequences of operations *)

Lemma exec_on_valid op s :
  selectionValid s ->
  exists s',
    exec op s = Done s' /\ selectionValid s'
    /\ pres_id (currentPresentation s') = pres_id (currentPresentation s)
    /\ pres_createdAt (currentPresentation s')
       = pres_createdAt (currentPresentation s)
    /\ pres_updatedAt (currentPresentation s')
       = pres_updatedAt (currentPresentation s).
Proof.
  intros Hsel. pose proof Hsel as Hrange. unfold selectionValid in Hrange.
  destruct op; simpl.
  - eexists. split; [reflexivity|]. split; [|done].
    unfold selectionValid, slides. simpl.
    rewrite EditorFacts.jsLength_app. unfold jsLength. simpl. lia.
  - destruct (EditorFacts.duplicateSlide_valid now s Hsel) as (src & _ & ->).
    eexists. split; [reflexivity|]. split; [|done].
    unfold selectionValid, slides. simpl.
    rewrite !EditorFacts.jsLength_app. unfold jsLength in *. simpl.
    rewrite length_take, length_drop. unfold slides in *. lia.
  - destruct (Z.le_gt_cases (jsLength (slides s)) 1) as [Hle|Hgt].
    + exists s. split; [|done]. unfold deleteSlide.
      destruct (Z.leb_spec (jsLength (slides s)) 1); [done|lia].
    + rewrite EditorFacts.deleteSlide_valid by (done || lia).
      eexists. split; [reflexivity|]. split; [|done].
      unfold selectionValid, slides. simpl.
      unfold jsLength in *. rewrite length_delete.
      * unfold slides in *. lia.
      * apply lookup_lt_is_Some. unfold slides in *. lia.
  - set (newIndex := match direction with
                     | Up => selectedSlideIndex s - 1
                     | Down => selectedSlideIndex s + 1
                     end).
    destruct (decide (0 <= newIndex < jsLength (slides s))) as [Hnew|Hout].
    + destruct (EditorFacts.moveSlide_valid direction s Hsel Hnew)
        as (a & b & _ & _ & ->).
      eexists. split; [reflexivity|]. split; [|done].
      unfold selectionValid, slides. simpl.
      unfold jsLength in *. rewrite !length_insert. exact Hnew.
    + exists s. split; [|done]. unfold moveSlide. fold newIndex.
      destruct (Z.ltb_spec newIndex 0); [done|].
      destruct (Z.geb_spec newIndex (jsLength (slides s))); [done|lia].
  - eexists. split; [reflexivity|]. split; [|done].
    unfold selectionValid, slides. simpl.
    rewrite EditorFacts.jsLength_jsMapIndex. exact Hrange.
  - eexists. split; [reflexivity|]. split; [exact Hrange|done].
  - eexists. split; [reflexivity|]. split; [exact Hrange|done].
Qed.

(** X15.  From a valid selection, any sequence of editor operations runs to
    the end without a handler raising or an [undefined] slide being
    written; the state reached has a valid selection and at least one
    slide, and the identifier and the two timestamps of the presentation
    are those it started with: editing never touches [updatedAt]. *)
Theorem operations_compose_on_a_valid_selection (ops : list Op) (s : State) :
  selectionValid s ->
  exists s',
    execAll ops s = Some s'
    /\ selectionValid s'
    /\ 1 <= jsLength (slides s')
    /\ pres_id (currentPresentation s') = pres_id (currentPresentation s)
    /\ pres_createdAt (currentPresentation s')
       = pres_createdAt (currentPresentation s)
    /\ pres_updatedAt (currentPresentation s')
       = pres_updatedAt (currentPresentation s).
Proof.
  revert s. induction ops as [|op ops IH]; intros s Hsel; simpl.
  - exists s. split_and!; try done. unfold selectionValid in Hsel. lia.
  - destruct (exec_on_valid op s Hsel) as (s1 & -> & Hsel1 & Hid & Hc & Hu).
    destruct (IH s1 Hsel1) as (s' & Hrun & Hsel' & Hlen & Hid' & Hc' & Hu').
    exists s'. split_and!; try done; congruence.
Qed.

Lemma operations_compose_on_a_valid_selection_witness :
  selectionValid sampleThree
  /\ exists s',
       execAll [OpDelete; OpDelete; OpDelete; OpDuplicate 1700000001000;
                OpMove Up] sampleThree = Some s'
       /\ selectionValid s'.
Proof.
  split; [exact EditorFacts.sampleThree_valid|].
  destruct (operations_compose_on_a_valid_selection
              [OpDelete; OpDelete; OpDelete; OpDuplicate 1700000001000; OpMove Up]
              sampleThree EditorFacts.sampleThree_valid) as (s' & H1 & H2 & _).
  exists s'. split; assumption.
Defined.

(** *** Image generation *)

Lemma substring_prefix (m : nat) (s : string) :
  exists rest,
    s = String.substring 0 m s +:+ rest
    /\ String.length (String.substring 0 m s) = Nat.min m (String.length s).
Proof.
  revert s. induction m as [|m IH]; intros s.
  - exists s. by destruct s.
  - destruct s as [|c s]; [by exists ""|].
    destruct (IH s) as (rest & Hrest & Hlen). exists rest. simpl.
    split; [|by rewrite Hlen].
    change (String c (String.substring 0 m s) +:+ rest)
      with (String c (String.substring 0 m s +:+ rest)).
    by rewrite <- Hrest.
Qed.

(** X17.  What [generateImage] asks for.  With no slide selected it raises;
    for a slide with neither title nor content it returns without a request
    and without touching the component; otherwise it sets the busy flag,
    leaves the slides alone, and sends a prompt made of the fixed opening,
    the whole title, and the first 100 characters of the content (all of it
    when it is shorter). *)
Theorem generateImage_sends_title_and_start_of_content (ses : Session) :
  match generateImageStart ses with
  | Raises => selectedSlide (cells ses) = None
  | NotSent =>
      exists slide, selectedSlide (cells ses) = Some slide
                    /\ slide_title slide = "" /\ slide_content slide = ""
  | Sent prompt ses' =>
      exists slide shown rest,
        selectedSlide (cells ses) = Some slide
        /\ (slide_title slide <> "" \/ slide_content slide <> "")
        /\ ses' = setIsGeneratingImage true ses
        /\ prompt = "Create a professional presentation image for: "
                    +:+ slide_title slide +:+ ". " +:+ shown
        /\ slide_content slide = shown +:+ rest
        /\ String.length shown
           = Nat.min 100 (String.length (slide_content slide))
  end.
Proof.
  unfold generateImageStart.
  destruct (selectedSlide (cells ses)) as [slide|]; [|done].
  destruct (String.eqb_spec (slide_title slide) "") as [Ht|Ht];
    destruct (String.eqb_spec (slide_content slide) "") as [Hc|Hc]; simpl;
    try (by exists slide);
    destruct (substring_prefix 100 (slide_content slide)) as (rest & Hrest & Hlen);
    exists slide, (String.substring 0 100 (slide_content slide)), rest;
    split_and!; auto.
Qed.

Lemma updateSlide_lookup (u : SlideUpdates) (s : State) (i : Z) :
  jsIndex (jsMapIndex
             (fun index slide =>
                if index =? selectedSlideIndex s then applyUpdates slide u
                else slide) (slides s)) i
  = (fun slide => if i =? selectedSlideIndex s then applyUpdates slide u
                  else slide) <$> jsIndex (slides s) i.
Proof.
  unfold jsIndex, jsMapIndex. destruct (Z.ltb_spec i 0); [done|].
  rewrite list_lookup_imap. by rewrite Z2Nat.id by lia.
Qed.

(** X18.  What [generateImage] does when its request settles.  The busy flag
    is cleared and the selection is left alone in every case.  A rejected
    request adds one console line and changes no slide; data without a
    first element, or whose first element has no [url] or an empty one,
    changes nothing.  A usable [url] is stored as the image of the slide
    that was selected when the request was made, in the slides as they
    were at that moment: every other slide and field is taken from then, so
    the outcome does not depend on edits made while the request was
    pending, and when there were none it is the plain field edit. *)
Theorem generateImage_applies_to_the_slides_at_call_time
    (atCall : State) (response : App.Response (list (option string)))
    (ses : Session) :
  let r := generateImageSettle atCall response ses in
  isGeneratingImage r = false
  /\ isSaving r = isSaving ses
  /\ selectedSlideIndex (cells r) = selectedSlideIndex (cells ses)
  /\ (response = App.Rejected ->
      cells r = cells ses
      /\ console r = console ses ++ ["Failed to generate image:"])
  /\ (forall data, response = App.Resolved data ->
        console r = console ses
        /\ (head data = None \/ head data = Some None \/ head data = Some (Some "")
            -> cells r = cells ses))
  /\ (forall url rest, response = App.Resolved (Some url :: rest) -> url <> "" ->
        currentPresentation (cells r)
        = withSlides (currentPresentation atCall) (slides (cells r))
        /\ jsIndex (slides (cells r)) (selectedSlideIndex atCall)
           = (fun slide => applyUpdates slide (imageUpdate url))
               <$> jsIndex (slides atCall) (selectedSlideIndex atCall)
        /\ (forall i, i <> selectedSlideIndex atCall ->
              jsIndex (slides (cells r)) i = jsIndex (slides atCall) i)
        /\ (forall ses', slides (cells (generateImageSettle atCall response ses'))
                         = slides (cells r))
        /\ (cells ses = atCall ->
            updateSlide (imageUpdate url) atCall = Done (cells r))).
Proof.
  intros r. unfold r, generateImageSettle. split_and!.
  - reflexivity.
  - destruct response as [[|[url|] rest]|]; try reflexivity.
    simpl. by destruct (url =? "")%string.
  - destruct response as [[|[url|] rest]|]; try reflexivity.
    simpl. by destruct (url =? "")%string.
  - intros ->. done.
  - intros data ->. split.
    + destruct data as [|[url|] rest]; try reflexivity.
      simpl. by destruct (url =? "")%string.
    + intros [H|[H|H]]; destruct data as [|[url|] rest]; simpl in H; try done.
      injection H as ->. reflexivity.
  - intros url rest -> Hurl.
    destruct (String.eqb_spec url "") as [|_]; [done|].
    simpl. rewrite !EditorFacts.slides_withSlides. split_and!.
    + reflexivity.
    + rewrite updateSlide_lookup, Z.eqb_refl. reflexivity.
    + intros i Hi. rewrite updateSlide_lookup.
      destruct (Z.eqb_spec i (selectedSlideIndex atCall)); [done|].
      by destruct (jsIndex (slides atCall) i).
    + intros ses'. destruct (String.eqb_spec url "") as [|_]; [done|].
      reflexivity.
    + intros <-. reflexivity.
Qed.

End EditorUiFacts.

(** * Further properties of the application shell *)

Module ShellFacts.

Import App Shell.

Lemma filter_none {A} (f : A -> bool) (l : list A) :
  (forall x, x ∈ l -> f x = false) -> List.filter f l = [].
Proof.
  induction l as [|x l IH]; intros Hl; simpl; [done|].
  rewrite (Hl x) by apply list_elem_of_here.
  apply IH. intros y Hy. apply Hl. by apply list_elem_of_further.
Qed.

Lemma generatedSlides_lookup clock data (i : nat) :
  generatedSlides clock data !! i
  = (fun g => mkSlide ("slide-" +:+ showNumber (clock (Z.of_nat i)) +:+ "-"
                       +:+ showNumber (Z.of_nat i))
                      (gen_title g) (gen_content g) None "modern" (gen_layout g))
      <$> data !! i.
Proof. unfold generatedSlides, jsMapIndex. by rewrite list_lookup_imap. Qed.

Lemma loadPresentations_loading reachable s db :
  loading (fst (loadPresentations reachable (s, db))) = loading s
  /\ console (fst (loadPresentations reachable (s, db)))
     = match user s, reachable with
       | Some _, false => console s ++ ["Failed to load presentations:"]
       | _, _ => console s
       end.
Proof.
  unfold loadPresentations. destruct (user s); [|done].
  destruct reachable; simpl; done.
Qed.

(** X19.  Creating a presentation is all or nothing, and always ends with
    [loading] cleared.  When the generation is rejected, nobody is signed
    in, or the gateway refuses the new row, the view, the current
    presentation, the list and the table are what they were, and one line is
    written to the console.  Otherwise one row is appended to the table and
    the editor opens on the new presentation: the given title, the theme
    [modern], one slide per generated slide in the same order, each with the
    generated title, content and layout and no image, and pairwise distinct
    slide identifiers; and the row written parses back to exactly that
    presentation. *)
Theorem createPresentation_is_all_or_nothing
    (generated : Response (list GeneratedSlide))
    (createReachable listReachable : bool) (clock : Z -> Z) (nowId : Z)
    (createdAt updatedAt title : string) (s : State) (db : Table) :
  let w' := createPresentation generated createReachable listReachable clock
              nowId createdAt updatedAt title (s, db) in
  loading (fst w') = false
  /\ user (fst w') = user s
  /\ (generated = Rejected \/ user s = None \/ createReachable = false ->
      w' = (setLoading false (consoleError "Failed to create presentation:" s), db))
  /\ (forall data u,
        generated = Resolved data -> user s = Some u -> createReachable = true ->
        exists p row,
          snd w' = db ++ [row]
          /\ currentPresentation (fst w') = Some p
          /\ currentView (fst w') = EditorView
          /\ p = mkPresentation ("pres-" +:+ showNumber nowId) title
                                (generatedSlides clock data) "modern"
                                createdAt updatedAt
          /\ length (pres_slides p) = length data
          /\ (forall i g, data !! i = Some g ->
                exists slide,
                  pres_slides p !! i = Some slide
                  /\ slide_title slide = gen_title g
                  /\ slide_content slide = gen_content g
                  /\ slide_layout slide = gen_layout g
                  /\ slide_imageUrl slide = None
                  /\ slide_theme slide = "modern")
          /\ NoDup (slide_id <$> pres_slides p)
          /\ row_id row = pres_id p
          /\ row_userId row = user_id u
          /\ rowToPresentation row = Some p).
Proof.
  intros w'. subst w'. unfold createPresentation.
  destruct generated as [data|]; [|by split_and!].
  destruct (user s) as [u|] eqn:Hu; [|by split_and!].
  destruct createReachable;
    cbn [dbCreate pres_id pres_title pres_slides pres_theme pres_createdAt
         pres_updatedAt];
    [|by split_and!; auto; intros ? ? ? ? ?].
  pose proof (AppFacts.loadPresentations_keeps listReachable
                (setCurrentView EditorView
                   (setCurrentPresentation
                      (mkPresentation ("pres-" +:+ showNumber nowId) title
                         (generatedSlides clock data) "modern" createdAt
                         updatedAt) s))
                (db ++ [mkRow ("pres-" +:+ showNumber nowId) title
                          (Json.stringifySlides (generatedSlides clock data))
                          "modern" (user_id u) createdAt updatedAt]))
    as (Hdb & Huser & Hpres & Hview).
  destruct (loadPresentations _ _) as [s2 db2].
  cbn [fst snd] in *. subst db2.
  split_and!.
  - reflexivity.
  - simpl. by rewrite Huser.
  - intros [H|[H|H]]; done.
  - intros data' u' [= <-] [= <-] _.
    exists (mkPresentation ("pres-" +:+ showNumber nowId) title
              (generatedSlides clock data) "modern" createdAt updatedAt),
           (mkRow ("pres-" +:+ showNumber nowId) title
              (Json.stringifySlides (generatedSlides clock data))
              "modern" (user_id u) createdAt updatedAt).
    split_and!.
    + reflexivity.
    + cbn [setLoading currentPresentation]. by rewrite Hpres.
    + cbn [setLoading currentView]. by rewrite Hview.
    + reflexivity.
    + cbn [pres_slides]. unfold generatedSlides, jsMapIndex.
      apply length_imap.
    + intros i g Hg. cbn [pres_slides].
      rewrite generatedSlides_lookup, Hg. simpl.
      eexists. split; [reflexivity|]. done.
    + apply IdFacts.generatedSlides_ids_distinct.
    + reflexivity.
    + reflexivity.
    + unfold rowToPresentation. cbn [row_slides].
      by rewrite JsonFacts.parseSlides_stringifySlides.
Qed.

Lemma filter_first {A} (f : A -> bool) (l : list A) x rest :
  List.filter f l = x :: rest -> x ∈ l /\ f x = true.
Proof.
  induction l as [|y l IH]; simpl; [done|].
  destruct (f y) eqn:Hy.
  - intros [= -> _]. split; [apply list_elem_of_here|done].
  - intros H. destruct (IH H) as [Hin Hf].
    split; [by apply list_elem_of_further|done].
Qed.

Lemma filter_app_singleton {A} (f : A -> bool) (l : list A) x :
  (forall y, y ∈ l -> f y = false) -> f x = true ->
  List.filter f (l ++ [x]) = [x].
Proof.
  intros Hl Hx. rewrite List.filter_app, (filter_none f l Hl). simpl.
  by rewrite Hx.
Qed.

(** X20.  Opening a presentation, on a table whose slide texts were all
    written by [JSON.stringify] from slide lists, never writes to the table
    and leaves the user, the loading flag and the list alone.  Without a
    user, or when the gateway does not answer, one line is written to the
    console and nothing else changes.  Otherwise no line is written, and
    either nothing changes or the editor opens on the presentation read
    from a row of the table that has the identifier asked for and belongs
    to the signed-in user; when every row with that identifier belongs to
    somebody else, nothing changes at all. *)
Theorem openPresentation_opens_a_row_of_the_user
    (listReachable : bool) (presentationId : string) (s : State) (db : Table) :
  (forall row, row ∈ db -> exists l, row_slides row = Json.stringifySlides l) ->
  let w' := openPresentation listReachable presentationId (s, db) in
  snd w' = db
  /\ user (fst w') = user s
  /\ loading (fst w') = loading s
  /\ presentations (fst w') = presentations s
  /\ (user s = None \/ listReachable = false ->
      fst w' = consoleError "Failed to open presentation:" s)
  /\ (forall u, user s = Some u -> listReachable = true ->
        fst w' = s
        \/ exists row p,
             row ∈ db
             /\ row_id row = presentationId /\ row_userId row = user_id u
             /\ rowToPresentation row = Some p
             /\ pres_id p = presentationId
             /\ fst w' = setCurrentView EditorView (setCurrentPresentation p s))
  /\ (forall u, user s = Some u -> listReachable = true ->
        (forall row, row ∈ db -> row_id row = presentationId ->
                     row_userId row <> user_id u) ->
        w' = (s, db)).
Proof.
  intros Hblobs w'. subst w'. unfold openPresentation.
  destruct (user s) as [u|] eqn:Hu; [|by split_and!; auto].
  destruct listReachable; cbn [dbList]; [|by split_and!; auto].
  destruct (List.filter _ db) as [|first rest] eqn:Hfilter.
  { split_and!; auto; try done. by intros [|]. }
  apply filter_first in Hfilter as [Hin Hf].
  apply andb_true_iff in Hf as [Hid Hown].
  apply String.eqb_eq in Hid. apply String.eqb_eq in Hown.
  assert (Hno : ~ (forall row, row ∈ db -> row_id row = presentationId ->
                               row_userId row <> user_id u)).
  { intros Hall. by apply (Hall first). }
  destruct (Hblobs first Hin) as [l Hl].
  assert (Hp : rowToPresentation first
               = Some (mkPresentation (row_id first) (row_title first) l
                         (row_theme first) (row_createdAt first)
                         (row_updatedAt first))).
  { unfold rowToPresentation.
    by rewrite Hl, JsonFacts.parseSlides_stringifySlides. }
  rewrite Hp. split_and!; try done.
  - by intros [|].
  - intros u' [= <-] _. right. eexists first, _. by split_and!.
  - intros u' [= <-] _ Hall. by destruct Hno.
Qed.

Lemma openPresentation_opens_a_row_of_the_user_witness :
  (forall row, row ∈ sampleTable ->
               exists l, row_slides row = Json.stringifySlides l)
  /\ snd (openPresentation true "pres-1699999999000"
            (sampleDashboard, sampleTable)) = sampleTable.
Proof.
  assert (H : forall row, row ∈ sampleTable ->
                          exists l, row_slides row = Json.stringifySlides l).
  { intros row Hin. apply list_elem_of_singleton in Hin as ->. by exists []. }
  split; [exact H|].
  exact (proj1 (openPresentation_opens_a_row_of_the_user true
                  "pres-1699999999000" sampleDashboard sampleTable H)).
Defined.

Lemma screen_dashboard s :
  screen s = DashboardScreen ->
  loading s = false /\ (exists u, user s = Some u)
  /\ currentView s = DashboardView.
Proof.
  unfold screen. destruct (loading s); [done|].
  destruct (user s) as [u|]; [|done].
  destruct (currentView s), (currentPresentation s); try done; eauto.
Qed.

Lemma screen_editor s p :
  screen s = EditorScreen p ->
  loading s = false /\ (exists u, user s = Some u)
  /\ currentView s = EditorView /\ currentPresentation s = Some p.
Proof.
  unfold screen. destruct (loading s); [done|].
  destruct (user s) as [u|]; [|done].
  destruct (currentView s), (currentPresentation s); try done.
  intros [= ->]. eauto.
Qed.

Lemma screen_viewer s p :
  screen s = ViewerScreen p ->
  loading s = false /\ (exists u, user s = Some u)
  /\ currentView s = ViewerView /\ currentPresentation s = Some p.
Proof.
  unfold screen. destruct (loading s); [done|].
  destruct (user s) as [u|]; [|done].
  destruct (currentView s), (currentPresentation s); try done.
  intros [= ->]. eauto.
Qed.

Lemma createPresentation_created data listReachable clock nowId createdAt
    updatedAt title s db u :
  user s = Some u ->
  let p := mkPresentation ("pres-" +:+ showNumber nowId) title
             (generatedSlides clock data) "modern" createdAt updatedAt in
  let row := mkRow (pres_id p) title (Json.stringifySlides (pres_slides p))
               "modern" (user_id u) createdAt updatedAt in
  let w' := createPresentation (Resolved data) true listReachable clock nowId
              createdAt updatedAt title (s, db) in
  snd w' = db ++ [row] /\ user (fst w') = Some u /\ loading (fst w') = false
  /\ currentPresentation (fst w') = Some p /\ currentView (fst w') = EditorView.
Proof.
  intros Hu p row w'. subst w' row p. unfold createPresentation.
  rewrite Hu.
  cbn [dbCreate pres_id pres_title pres_slides pres_theme pres_createdAt
       pres_updatedAt].
  pose proof (AppFacts.loadPresentations_keeps listReachable
                (setCurrentView EditorView
                   (setCurrentPresentation
                      (mkPresentation ("pres-" +:+ showNumber nowId) title
                         (generatedSlides clock data) "modern" createdAt
                         updatedAt) s))
                (db ++ [mkRow ("pres-" +:+ showNumber nowId) title
                          (Json.stringifySlides (generatedSlides clock data))
                          "modern" (user_id u) createdAt updatedAt]))
    as (Hdb & Huser & Hpres & Hview).
  destruct (loadPresentations _ _) as [s2 db2].
  cbn [fst snd] in *. subst db2.
  cbn [setLoading user loading currentPresentation currentView].
  rewrite Huser, Hpres, Hview. by split_and!.
Qed.

(** X21.  A presentation created from the dashboard can be opened again.
    With a signed-in user on the dashboard and no earlier row of that user
    under the new identifier, creating a presentation (generation and
    gateway answering), going back to the dashboard and opening the new
    identifier shows the editor on exactly the presentation that was
    created, and the table holds one more row. *)
Theorem created_presentation_opens_again
    (data : list GeneratedSlide) (listReachable : bool) (clock : Z -> Z)
    (nowId : Z) (createdAt updatedAt title : string)
    (s : State) (db : Table) (u : User) :
  screen s = DashboardScreen ->
  user s = Some u ->
  (forall row, row ∈ db -> row_userId row = user_id u ->
               row_id row <> "pres-" +:+ showNumber nowId) ->
  let p := mkPresentation ("pres-" +:+ showNumber nowId) title
             (generatedSlides clock data) "modern" createdAt updatedAt in
  let w' := run [CreatePresentation (Resolved data) true listReachable clock
                   nowId createdAt updatedAt title;
                 EditorBack;
                 OpenPresentation true (pres_id p)] (s, db) in
  screen (fst w') = EditorScreen p
  /\ snd w' = db ++ [mkRow (pres_id p) title
                       (Json.stringifySlides (pres_slides p)) "modern"
                       (user_id u) createdAt updatedAt].
Proof.
  intros Hscreen Hu Hfresh p w'.
  pose proof (createPresentation_created data listReachable clock nowId
                createdAt updatedAt title s db u Hu)
    as (Hdb & Huser & Hload & Hpres & Hview).
  cbv zeta in Hdb, Huser, Hload, Hpres, Hview.
  assert (Hrun : exists s3,
             w' = (s3, db ++ [mkRow (pres_id p) title
                                (Json.stringifySlides (pres_slides p))
                                "modern" (user_id u) createdAt updatedAt])
             /\ screen s3 = EditorScreen p).
  { subst w'. unfold run. cbn [fold_left].
    assert (Hstep1 : step (s, db)
                       (CreatePresentation (Resolved data) true listReachable
                          clock nowId createdAt updatedAt title)
                     = createPresentation (Resolved data) true listReachable
                         clock nowId createdAt updatedAt title (s, db)).
    { unfold step. by rewrite Hscreen. }
    rewrite Hstep1.
    destruct (createPresentation _ _ _ _ _ _ _ _ _) as [s1 db1].
    cbn [fst snd] in *. subst db1.
    assert (Hs1 : screen s1 = EditorScreen p).
    { unfold screen. by rewrite Hload, Huser, Hview, Hpres. }
    assert (Hstep2 : forall t, step (s1, t) EditorBack
                               = (setCurrentView DashboardView s1, t)).
    { intros t. unfold step. by rewrite Hs1. }
    rewrite Hstep2.
    assert (Hs2 : screen (setCurrentView DashboardView s1) = DashboardScreen).
    { unfold screen. cbn [setCurrentView loading user currentView].
      by rewrite Hload, Huser. }
    assert (Hstep3 : forall t, step (setCurrentView DashboardView s1, t)
                                 (OpenPresentation true (pres_id p))
                               = openPresentation true (pres_id p)
                                   (setCurrentView DashboardView s1, t)).
    { intros t. unfold step. by rewrite Hs2. }
    rewrite Hstep3. unfold openPresentation.
    cbn [setCurrentView user]. rewrite Huser. cbn [dbList].
    rewrite filter_app_singleton.
    - unfold rowToPresentation. cbn [row_slides].
      rewrite JsonFacts.parseSlides_stringifySlides.
      eexists. split; [reflexivity|].
      unfold screen.
      cbn [setCurrentView setCurrentPresentation loading user currentView
           currentPresentation].
      by rewrite Hload, Huser.
    - intros row Hin. apply andb_false_iff.
      destruct (String.eqb_spec (row_userId row) (user_id u)) as [Hown|];
        [left|by right].
      apply String.eqb_neq. by apply Hfresh.
    - cbn [row_id row_userId]. by rewrite !String.eqb_refl. }
  by destruct Hrun as (s3 & -> & Hs3).
Qed.

Lemma created_presentation_opens_again_witness :
  let p := mkPresentation "pres-1700000000000" "Roadmap"
             (generatedSlides sampleClock sampleData) "modern"
             "2023-11-14T22:13:20.000Z" "2023-11-14T22:13:20.000Z" in
  let w' := run [CreatePresentation (Resolved sampleData) true true
                   sampleClock 1700000000000 "2023-11-14T22:13:20.000Z"
                   "2023-11-14T22:13:20.000Z" "Roadmap";
                 EditorBack;
                 OpenPresentation true "pres-1700000000000"]
                (sampleDashboard, sampleTable) in
  screen (fst w') = EditorScreen p
  /\ snd w' = sampleTable
               ++ [mkRow "pres-1700000000000" "Roadmap"
                     (Json.stringifySlides (pres_slides p)) "modern" "user-1"
                     "2023-11-14T22:13:20.000Z" "2023-11-14T22:13:20.000Z"].
Proof.
  apply (created_presentation_opens_again sampleData true sampleClock
           1700000000000 "2023-11-14T22:13:20.000Z"
           "2023-11-14T22:13:20.000Z" "Roadmap" sampleDashboard sampleTable
           sampleUser).
  - reflexivity.
  - reflexivity.
  - intros row Hin _. apply list_elem_of_singleton in Hin as ->.
    vm_compute. discriminate.
Defined.

Lemma step_keeps_view_presentation w e :
  viewHasPresentation (fst w) -> viewHasPresentation (fst (step w e)).
Proof.
  destruct w as [s db]. unfold viewHasPresentation. cbn [fst].
  intros Hinv.
  destruct e as [u isLoading|listReachable
                |generated createReachable listReachable clock nowId createdAt
                   updatedAt title
                |listReachable presentationId
                |updateReachable listReachable isoNow presentation| | |];
    unfold step.
  - done.
  - destruct (AppFacts.loadPresentations_keeps listReachable s db)
      as (_ & _ & Hpres & Hview).
    by rewrite Hpres, Hview.
  - destruct (screen s); try done.
    unfold createPresentation.
    destruct generated as [data|]; [|done].
    destruct (user s) as [u|]; [|done].
    destruct createReachable; cbn [dbCreate]; [|done].
    match goal with
    | |- context [loadPresentations ?r (?s0, ?t)] =>
        destruct (AppFacts.loadPresentations_keeps r s0 t)
          as (_ & _ & Hpres & _);
        destruct (loadPresentations _ _) as [s2 db2]
    end.
    cbn [fst setLoading currentPresentation currentView] in *.
    by rewrite Hpres.
  - destruct (screen s); try done.
    unfold openPresentation.
    destruct (user s) as [u|]; [|done].
    destruct (dbList _ _ _ _) as [[|first rest]|]; try done.
    by destruct (rowToPresentation first).
  - destruct (screen s); try done.
    unfold savePresentation.
    destruct (dbUpdate _ _ _ _ _ _ _) as [db'|]; [|done].
    match goal with
    | |- context [loadPresentations ?r (?s0, ?t)] =>
        destruct (AppFacts.loadPresentations_keeps r s0 t)
          as (_ & _ & Hpres & _)
    end.
    by rewrite Hpres.
  - by destruct (screen s).
  - destruct (screen s) eqn:Hs; try done.
    apply screen_editor in Hs as (_ & _ & _ & Hp).
    cbn [fst setCurrentView currentPresentation]. by rewrite Hp.
  - destruct (screen s) eqn:Hs; try done.
    apply screen_viewer in Hs as (_ & _ & _ & Hp).
    cbn [fst setCurrentView currentPresentation]. by rewrite Hp.
Qed.

Lemma run_keeps_view_presentation evs w :
  viewHasPresentation (fst w) -> viewHasPresentation (fst (run evs w)).
Proof.
  revert w. induction evs as [|e evs IH]; intros w Hw; [done|].
  apply IH. by apply step_keeps_view_presentation.
Qed.

(** X22.  The shell never draws an empty page.  From the mounted state, after
    any sequence of sign-in changes, reloads, creations, openings, saves and
    view changes (each arriving while the component that raises it is on
    screen, each request running to its end), the editor view and the
    viewer view always have a current presentation, so the page is the
    loading screen, the sign-in screen, the dashboard, the editor or the
    viewer. *)
Theorem shell_never_draws_an_empty_page (evs : list Event) (db : Table) :
  let s := fst (run evs (initial, db)) in
  viewHasPresentation s /\ screen s <> BlankScreen.
Proof.
  intros s.
  assert (Hinv : viewHasPresentation s).
  { apply run_keeps_view_presentation. by intros H. }
  split; [done|].
  unfold viewHasPresentation in Hinv. unfold screen.
  destruct (loading s); [done|]. destruct (user s); [|done].
  destruct (currentView s), (currentPresentation s); try done.
  - by destruct Hinv.
  - by destruct Hinv.
Qed.

(** X23.  Pressing present hands the viewer what the shell holds, that
    is what was last opened or saved.  With the editor open on [p0], a deck
    with slides, pressing present after a save of [p] makes the shell return
    the viewer for [p] when the gateway took the update and for [p0] when
    it refused it; pressing present without saving makes it return the
    viewer for [p0], whatever was edited; and presenting writes nothing to
    the table. *)
Theorem present_hands_over_what_was_last_saved
    (s : State) (db : Table) (p0 p : Presentation)
    (updateReachable listReachable : bool) (isoNow : string) :
  screen s = EditorScreen p0 ->
  pres_slides p0 <> [] ->
  screen (fst (run [SavePresentation updateReachable listReachable isoNow p;
                    Present] (s, db)))
  = ViewerScreen (if updateReachable then p else p0)
  /\ screen (fst (step (s, db) Present)) = ViewerScreen p0
  /\ snd (step (s, db) Present) = db.
Proof.
  intros Hs _. pose proof Hs as Hed.
  apply screen_editor in Hed as (Hload & (u & Hu) & Hview & Hp).
  assert (Hpresent : forall s1 t q, screen s1 = EditorScreen q ->
            step (s1, t) Present = (setCurrentView ViewerView s1, t)).
  { intros s1 t q Hs1. unfold step. by rewrite Hs1. }
  assert (Hshown : forall s1 q, screen s1 = EditorScreen q ->
            screen (setCurrentView ViewerView s1) = ViewerScreen q).
  { intros s1 q Hs1.
    apply screen_editor in Hs1 as (Hl1 & (u1 & Hu1) & _ & Hp1).
    unfold screen.
    cbn [setCurrentView loading user currentView currentPresentation].
    by rewrite Hl1, Hu1, Hp1. }
  split_and!.
  - unfold run. cbn [fold_left].
    assert (Hsave : exists s1,
               step (s, db) (SavePresentation updateReachable listReachable
                               isoNow p)
               = (s1, snd (savePresentation updateReachable listReachable
                             isoNow p (s, db)))
               /\ screen s1 = EditorScreen (if updateReachable then p else p0)).
    { unfold step. rewrite Hs. unfold savePresentation.
      destruct updateReachable; cbn [dbUpdate].
      - match goal with
        | |- context [loadPresentations ?r (?s0, ?t)] =>
            pose proof (AppFacts.loadPresentations_keeps r s0 t)
              as (_ & Hu2 & Hp2 & Hv2);
            pose proof (loadPresentations_loading r s0 t) as [Hl2 _];
            destruct (loadPresentations _ _) as [s2 db2]
        end.
        cbn [fst snd] in *. exists s2. split; [done|].
        unfold screen. rewrite Hl2, Hu2, Hv2, Hp2.
        cbn [setCurrentPresentation loading user currentView
             currentPresentation].
        by rewrite Hload, Hu, Hview.
      - eexists. split; [reflexivity|].
        unfold screen.
        cbn [consoleError loading user currentView currentPresentation].
        by rewrite Hload, Hu, Hview, Hp. }
    destruct Hsave as (s1 & -> & Hs1).
    rewrite (Hpresent _ _ _ Hs1). cbn [fst]. by apply Hshown.
  - rewrite (Hpresent _ _ _ Hs). cbn [fst]. by apply Hshown.
  - by rewrite (Hpresent _ _ _ Hs).
Qed.

Lemma present_hands_over_what_was_last_saved_witness :
  screen (fst (run [SavePresentation true true "2023-11-14T22:13:20.000Z"
                      (Editor.currentPresentation sampleThree);
                    Present] (sampleApp, sampleTable)))
  = ViewerScreen (Editor.currentPresentation sampleThree)
  /\ screen (fst (step (sampleApp, sampleTable) Present))
     = ViewerScreen (Editor.currentPresentation sampleSingle)
  /\ snd (step (sampleApp, sampleTable) Present) = sampleTable.
Proof.
  apply (present_hands_over_what_was_last_saved sampleApp sampleTable
           (Editor.currentPresentation sampleSingle)
           (Editor.currentPresentation sampleThree) true true
           "2023-11-14T22:13:20.000Z").
  - reflexivity.
  - discriminate.
Defined.

End ShellFacts.

(** * Properties of the dashboard *)

Module DashboardFacts.

Import Dashboard.

Lemma trimEnd_blank s : trimEnd s = "" <-> isBlank s = true.
Proof.
  induction s as [|c s IH]; [done|].
  cbn [trimEnd isBlank].
  destruct (trimEnd s) as [|c' kept].
  - assert (Hs : isBlank s = true) by by apply IH.
    rewrite Hs, andb_true_r. by destruct (isTrimSpace c).
  - assert (Hs : isBlank s = false).
    { destruct (isBlank s); [|done]. by destruct IH as [_ IH]; specialize (IH eq_refl). }
    rewrite Hs, andb_false_r. done.
Qed.

Lemma isBlank_trimStart s : isBlank (trimStart s) = isBlank s.
Proof.
  induction s as [|c s IH]; [done|].
  cbn [trimStart isBlank].
  destruct (isTrimSpace c) eqn:Hc; [done|].
  cbn [isBlank]. by rewrite Hc.
Qed.

Lemma trim_blank s : trim s = "" <-> isBlank s = true.
Proof. unfold trim. by rewrite trimEnd_blank, isBlank_trimStart. Qed.

Lemma trim_eqb_blank s : (trim s =? "")%string = isBlank s.
Proof.
  destruct (String.eqb_spec (trim s) "") as [H|H].
  - symmetry. by apply trim_blank.
  - destruct (isBlank s) eqn:Hb; [|done].
    destruct H. by apply trim_blank.
Qed.

(** X24.  The create dialog sends a request exactly when both the title and
    the prompt hold something other than white space.  The request carries
    the title and the prompt as typed, white space around them included,
    and sets the busy flag while leaving the fields and the dialog alone.
    The button is disabled whenever [handleCreate] would return at once,
    and choosing any of the four templates fills in a title and a prompt
    that pass the check. *)
Theorem handleCreate_needs_a_title_and_a_prompt (s : State) :
  (handleCreateStart s = NotSubmitted
   <-> isBlank (title s) = true \/ isBlank (prompt s) = true)
  /\ (forall t p s', handleCreateStart s = Submitted t p s' ->
        t = title s /\ p = prompt s
        /\ s' = mkState (isCreateOpen s) (title s) (prompt s) true)
  /\ (handleCreateStart s = NotSubmitted -> createDisabled s = true)
  /\ (forall template, template ∈ templates ->
        exists s', handleCreateStart (handleTemplateSelect template s)
                   = Submitted (tpl_title template) (tpl_prompt template) s').
Proof.
  unfold handleCreateStart, createDisabled.
  rewrite !trim_eqb_blank.
  split_and!.
  - destruct (isBlank (title s)), (isBlank (prompt s)); simpl;
      split; try done; auto; by intros [|].
  - intros t p s'.
    destruct (isBlank (title s) || isBlank (prompt s)); [done|].
    by intros [= <- <- <-].
  - by destruct (isBlank (title s) || isBlank (prompt s)).
  - intros template Hin. unfold templates in Hin.
    apply elem_of_cons in Hin as [->|Hin]; [by eexists|].
    apply elem_of_cons in Hin as [->|Hin]; [by eexists|].
    apply elem_of_cons in Hin as [->|Hin]; [by eexists|].
    apply elem_of_cons in Hin as [->|Hin]; [by eexists|].
    inversion Hin.
Qed.

End DashboardFacts.
